(** * django_cached_field: the staleness engine of a cached model field

    A shallow embedding of [django_cached_field/__init__.py].  The module
    attaches to a Django model a value that is expensive to compute, stores
    it in the row next to a "recalculation needed" flag and, when temporal
    triggers are on, an expiration timestamp, and recomputes it on read,
    on demand or through a deferred job.

    The Python functions thread three kinds of effect, all modelled
    explicitly: the attributes of the in-memory model object ([self]), the
    table behind [type(self).objects] (a finite map from primary key to
    row), and the calls made to collaborators (queries, updates, the
    user-defined calculation method, the deferred job), kept in a trace in
    call order.  Exceptions keep the state reached when they were raised. *)

From Stdlib Require Import ZArith String List Bool Lia.
From stdpp Require Import gmap strings.

Local Open Scope Z_scope.

(** ** Python values *)

(** Values a cached column can hold ([None] included). *)
Inductive pyval :=
| VNone
| VBool (b : bool)
| VInt (z : Z)
| VStr (s : string).

(** Exceptions the module can raise or let through. *)
Inductive exn :=
| AttributeError (name : string)
| IndexError
| TypeError
| CalculationError (tag : string).

(** Whatever can be added to a datetime: [datetime.timedelta],
    [dateutil.relativedelta].  The module only uses its truth value
    ([expiration or ...]) and [now() + expiration]. *)
Class RelativeOffset (O : Type) := {
  offset_bool : O -> bool;
  datetime_add : Z -> O -> Z
}.

(** [datetime.timedelta] in microseconds: false exactly when zero. *)
#[export] Instance timedelta_offset : RelativeOffset Z := {|
  offset_bool d := negb (d =? 0);
  datetime_add t d := t + d
|}.

(** An expiration as the callers and the settings give it: [None], an
    absolute datetime (microseconds since the epoch), or a relative offset. *)
Inductive pyexp (O : Type) :=
| PyNone
| PyDatetime (t : Z)
| PyOffset (o : O).
Arguments PyNone {O}.
Arguments PyDatetime {O} t.
Arguments PyOffset {O} o.

(** Python truth value: a datetime is always true. *)
Definition pyexp_bool {O} `{RelativeOffset O} (e : pyexp O) : bool :=
  match e with
  | PyNone => false
  | PyDatetime _ => true
  | PyOffset o => offset_bool o
  end.

(** The value of [field.temporal_triggers]: the constructor argument (a
    bool) or, when that is false, the default expiration of the settings. *)
Inductive pytrig (O : Type) :=
| TrigBool (b : bool)
| TrigExp (e : pyexp O).
Arguments TrigBool {O} b.
Arguments TrigExp {O} e.

Definition pytrig_bool {O} `{RelativeOffset O} (t : pytrig O) : bool :=
  match t with
  | TrigBool b => b
  | TrigExp e => pyexp_bool e
  end.

(** A dict of keyword arguments for celery; the outer [option] of a
    [pykwargs] is Python's [None]. *)
Definition kwdict := list (string * pyval).
Definition pykwargs := option kwdict.

Definition pykwargs_bool (k : pykwargs) : bool :=
  match k with
  | None => false
  | Some nil => false
  | Some (_ :: _) => true
  end.

(** ** Settings

    [django.conf.settings]: an attribute is [None] here when the settings
    object does not define it, so that [getattr(settings, NAME)] raises
    [AttributeError] and [hasattr(settings, NAME)] is false. *)
Record Settings (O : Type) := {
  CACHED_FIELD_DEFAULT_EXPIRATION : option (pyexp O);
  CACHED_FIELD_CELERY_ASYNC_KWARGS : option pykwargs;
  CACHED_FIELD_EAGER_RECALCULATION : option bool
}.
Arguments CACHED_FIELD_DEFAULT_EXPIRATION {O} _.
Arguments CACHED_FIELD_CELERY_ASYNC_KWARGS {O} _.
Arguments CACHED_FIELD_EAGER_RECALCULATION {O} _.

(** ** The field object *)

Record CachedField (O : Type) := {
  temporal_triggers : pytrig O;
  celery_async_kwargs : pykwargs;
  db_index_on_temporal_trigger_field : bool;
  db_index_on_recalculation_needed_field : bool;
  _expiration_field_name : option string;
  _calculation_method_name : option string;
  _cached_field_name : option string;
  _recalculation_needed_field_name : option string
}.
Arguments temporal_triggers {O} _.
Arguments celery_async_kwargs {O} _.
Arguments db_index_on_temporal_trigger_field {O} _.
Arguments db_index_on_recalculation_needed_field {O} _.
Arguments _expiration_field_name {O} _.
Arguments _calculation_method_name {O} _.
Arguments _cached_field_name {O} _.
Arguments _recalculation_needed_field_name {O} _.

(** [if name:] on an optional string argument: set only when non-empty. *)
Definition given_name (name : option string) : option string :=
  match name with
  | Some EmptyString => None
  | other => other
  end.

(** [CachedFieldMixin.__init__] (lines 151-172).  The two [getattr] calls
    have no default, so each raises when the first operand of its [or] is
    false and the settings do not define the name. *)
Definition CachedFieldMixin__init__ {O} `{RelativeOffset O}
    (settings : Settings O)
    (calculation_method_name cached_field_name
       recalculation_needed_field_name : option string)
    (temporal_triggers_arg : bool)
    (db_index_on_temporal_trigger_field_arg
       db_index_on_recalculation_needed_field_arg : bool)
    (expiration_field_name : option string)
    (celery_async_kwargs_arg : pykwargs) : exn + CachedField O :=
  match
    (if temporal_triggers_arg then inr (TrigBool true)
     else match CACHED_FIELD_DEFAULT_EXPIRATION settings with
          | None => inl (AttributeError "CACHED_FIELD_DEFAULT_EXPIRATION")
          | Some e => inr (TrigExp e)
          end)
  with
  | inl e => inl e
  | inr trig =>
    match
      (if pykwargs_bool celery_async_kwargs_arg then inr celery_async_kwargs_arg
       else match CACHED_FIELD_CELERY_ASYNC_KWARGS settings with
            | None => inl (AttributeError "CACHED_FIELD_CELERY_ASYNC_KWARGS")
            | Some k => inr k
            end)
    with
    | inl e => inl e
    | inr kw =>
      inr {| temporal_triggers := trig;
             celery_async_kwargs := kw;
             db_index_on_temporal_trigger_field :=
               db_index_on_temporal_trigger_field_arg;
             db_index_on_recalculation_needed_field :=
               db_index_on_recalculation_needed_field_arg;
             _expiration_field_name := given_name expiration_field_name;
             _calculation_method_name := given_name calculation_method_name;
             _cached_field_name := given_name cached_field_name;
             _recalculation_needed_field_name :=
               given_name recalculation_needed_field_name |}
    end
  end.

(** ** Model objects, rows and the machine state *)

(** [self._meta], as far as [trigger_cache_recalculation] reads it. *)
Record Meta := {
  app_label : string;
  object_name : string;
  proxy : bool;
  proxy_for_model_object_name : string
}.

(** The in-memory model object: its primary key and the three attributes
    the field owns ([cached_FIELD], [FIELD_recalculation_needed],
    [FIELD_expires_after]). *)
Record Instance := {
  pk : Z;
  _meta : Meta;
  cached_FIELD : pyval;
  FIELD_recalculation_needed : bool;
  FIELD_expires_after : option Z
}.

(** The same three columns in the table.  The expiration attribute and
    column are there for every field; the code adds them when the field
    has temporal triggers (lines 194-201) and reads or writes them on no
    other field, [expire_FIELD_after] apart, which only such fields get. *)
Record Row := {
  r_cached : pyval;
  r_recalculation_needed : bool;
  r_expires_after : option Z
}.

(** The dict passed to [update] and returned as the change set:
    a key is present when its component is [Some]. *)
Record Kwargs := {
  kw_cached : option pyval;
  kw_recalculation_needed : option bool;
  kw_expires_after : option (option Z)
}.

Definition kw_empty : Kwargs :=
  {| kw_cached := None; kw_recalculation_needed := None;
     kw_expires_after := None |}.

(** Calls to collaborators, in the order made: the query of line 25, an
    [update], the calculation method (line 68), the entry into
    [trigger_cache_recalculation] (line 36) and the job it hands to
    [offload_cache_recalculation.delay]. *)
Inductive Event :=
| DbSelect (key : Z)
| DbUpdate (key : Z) (kw : Kwargs)
| CallCalculate
| CallTrigger
| Delay (app obj : string) (key : Z) (kw : kwdict).

Record State := {
  self : Instance;
  db : gmap Z Row;
  trace : list Event;
  ticks : nat
}.

(** What [update] does to a matched row. *)
Definition apply_kwargs (kw : Kwargs) (r : Row) : Row :=
  {| r_cached := default (r_cached r) (kw_cached kw);
     r_recalculation_needed :=
       default (r_recalculation_needed r) (kw_recalculation_needed kw);
     r_expires_after := default (r_expires_after r) (kw_expires_after kw) |}.

(** ** A state and exception monad *)

Inductive outcome (A : Type) :=
| Return (a : A) (s : State)
| Raise (e : exn) (s : State).
Arguments Return {A} a s.
Arguments Raise {A} e s.

Definition M (A : Type) := State -> outcome A.

Definition ret {A} (a : A) : M A := fun s => Return a s.
Definition raise {A} (e : exn) : M A := fun s => Raise e s.
Definition bind {A B} (m : M A) (k : A -> M B) : M B :=
  fun s => match m s with
           | Return a s' => k a s'
           | Raise e s' => Raise e s'
           end.

Notation "'let*' x ':=' c 'in' k" := (bind c (fun x => k))
  (at level 10, x name, c at level 100, k at level 200).
Notation "c ';;' k" := (bind c (fun _ => k))
  (at level 100, k at level 200, right associativity).

(** The state an outcome ends in, returned or raised. *)
Definition final_state {A} (o : outcome A) : State :=
  match o with
  | Return _ s => s
  | Raise _ s => s
  end.

Definition log (ev : Event) (s : State) : State :=
  {| self := self s; db := db s; trace := trace s ++ [ev]; ticks := ticks s |}.

Definition with_self (f : Instance -> Instance) (s : State) : State :=
  {| self := f (self s); db := db s; trace := trace s; ticks := ticks s |}.

Definition set_cached (v : pyval) (i : Instance) : Instance :=
  {| pk := pk i; _meta := _meta i; cached_FIELD := v;
     FIELD_recalculation_needed := FIELD_recalculation_needed i;
     FIELD_expires_after := FIELD_expires_after i |}.

Definition set_recalculation_needed (b : bool) (i : Instance) : Instance :=
  {| pk := pk i; _meta := _meta i; cached_FIELD := cached_FIELD i;
     FIELD_recalculation_needed := b;
     FIELD_expires_after := FIELD_expires_after i |}.

Definition set_expires_after (e : option Z) (i : Instance) : Instance :=
  {| pk := pk i; _meta := _meta i; cached_FIELD := cached_FIELD i;
     FIELD_recalculation_needed := FIELD_recalculation_needed i;
     FIELD_expires_after := e |}.

(** [getattr(self, ...)] and [setattr(self, ..., v)] on the three slots. *)
Definition getattr_cached : M pyval :=
  fun s => Return (cached_FIELD (self s)) s.
Definition getattr_recalculation_needed : M bool :=
  fun s => Return (FIELD_recalculation_needed (self s)) s.
Definition getattr_expires_after : M (option Z) :=
  fun s => Return (FIELD_expires_after (self s)) s.

Definition setattr_cached (v : pyval) : M unit :=
  fun s => Return tt (with_self (set_cached v) s).
Definition setattr_recalculation_needed (b : bool) : M unit :=
  fun s => Return tt (with_self (set_recalculation_needed b) s).
Definition setattr_expires_after (e : option Z) : M unit :=
  fun s => Return tt (with_self (set_expires_after e) s).

(** [type(self).objects.filter(pk=self.pk).update]: one call to the
    store, which changes the row of that key when there is one. *)
Definition db_update (kw : Kwargs) : M unit :=
  fun s => Return tt
    {| self := self s;
       db := alter (apply_kwargs kw) (pk (self s)) (db s);
       trace := trace s ++ [DbUpdate (pk (self s)) kw];
       ticks := ticks s |}.

(** [type(self).objects.filter(pk=self.pk).values_list(flag, flat=True)[0]]:
    indexing an empty result raises [IndexError]. *)
Definition db_select_recalculation_needed : M bool :=
  fun s =>
    let s' := log (DbSelect (pk (self s))) s in
    match db s !! pk (self s) with
    | Some r => Return (r_recalculation_needed r) s'
    | None => Raise IndexError s'
    end.

(** [getattr(settings, name)] without a default. *)
Definition settings_getattr {A} (name : string) (v : option A) : M A :=
  match v with
  | Some a => ret a
  | None => raise (AttributeError name)
  end.

(** ** The module's functions *)

Section Engine.

Context {O : Type} `{RelativeOffset O}.

(** [django.conf.settings], read-only. *)
Variable settings : Settings O.

(** [timezone.now]: the [n]-th reading of the clock.  Nothing is assumed of
    it, not even that it goes forward. *)
Variable clock : nat -> Z.

(** The user-defined [calculate_FIELD] of the model: it sees the object and
    returns a value or raises; it is taken to leave the object and the
    table alone. *)
Variable calculate : Instance -> exn + pyval.

Definition now : M Z :=
  fun s => Return (clock (ticks s))
    {| self := self s; db := db s; trace := trace s; ticks := S (ticks s) |}.

(** [getattr(self, field.calculation_method_name)()], line 68. *)
Definition call_calculate : M pyval :=
  fun s =>
    let s' := log CallCalculate s in
    match calculate (self s) with
    | inr v => Return v s'
    | inl e => Raise e s'
    end.

(** Lines 48-50, and again lines 77-79:
    [expiration = expiration or getattr(settings, 'CACHED_FIELD_DEFAULT_EXPIRATION')],
    then [now() + expiration] unless it is [None] or a datetime. *)
Definition resolve_expiration (expiration : pyexp O) : M (option Z) :=
  let* expiration :=
    (if pyexp_bool expiration then ret expiration
     else settings_getattr "CACHED_FIELD_DEFAULT_EXPIRATION"
            (CACHED_FIELD_DEFAULT_EXPIRATION settings)) in
  match expiration with
  | PyNone => ret None
  | PyDatetime t => ret (Some t)
  | PyOffset o => let* n := now in ret (Some (datetime_add n o))
  end.

(** [trigger_cache_recalculation] (lines 104-109).  Unpacking [None] with
    the double star raises [TypeError] before [delay] is called. *)
Definition trigger_cache_recalculation (field : CachedField O) : M unit :=
  fun s =>
    let s := log CallTrigger s in
    let m := _meta (self s) in
    let obj_name := if proxy m then proxy_for_model_object_name m
                    else object_name m in
    match celery_async_kwargs field with
    | Some kw => Return tt (log (Delay (app_label m) obj_name (pk (self s)) kw) s)
    | None => Raise TypeError s
    end.

(** Lines 21-24: the explicit argument, else the setting when the settings
    define it, else [True]. *)
Definition resolve_and_recalculate (and_recalculate : option bool) : bool :=
  match and_recalculate with
  | Some b => b
  | None =>
    match CACHED_FIELD_EAGER_RECALCULATION settings with
    | Some b => b
    | None => true
    end
  end.

(** [_flag_FIELD_as_stale] (lines 12-37). *)
Definition _flag_FIELD_as_stale (field : CachedField O)
    (and_recalculate : option bool) (commit : bool) : M Kwargs :=
  let and_recalculate := resolve_and_recalculate and_recalculate in
  let* already_flagged_for_recalculation := db_select_recalculation_needed in
  let* kwargs :=
    (if already_flagged_for_recalculation then ret kw_empty
     else
       setattr_recalculation_needed true;;
       ret {| kw_cached := None; kw_recalculation_needed := Some true;
              kw_expires_after := None |}) in
  (if commit then
     db_update kwargs;;
     (if and_recalculate then trigger_cache_recalculation field else ret tt)
   else ret tt);;
  ret kwargs.

(** [_expire_FIELD_after] (lines 40-52). *)
Definition _expire_FIELD_after (field : CachedField O)
    (expiration : pyexp O) : M unit :=
  let* expiration := resolve_expiration expiration in
  setattr_expires_after expiration;;
  db_update {| kw_cached := None; kw_recalculation_needed := None;
               kw_expires_after := Some expiration |}.

(** [_set_FIELD] (lines 100-101). *)
Definition _set_FIELD (field : CachedField O) (val : pyval) : M unit :=
  setattr_cached val.

(** [_recalculate_FIELD] (lines 55-85); it returns the change set when not
    committing and [None] otherwise. *)
Definition _recalculate_FIELD (field : CachedField O)
    (expiration : pyexp O) (commit : bool) : M (option Kwargs) :=
  (if commit then
     db_update {| kw_cached := None; kw_recalculation_needed := Some false;
                  kw_expires_after := None |}
   else ret tt);;
  let* val := call_calculate in
  _set_FIELD field val;;
  setattr_recalculation_needed false;;
  let kwargs :=
    {| kw_cached := Some val;
       kw_recalculation_needed := if commit then None else Some false;
       kw_expires_after := None |} in
  let* kwargs :=
    (if pytrig_bool (temporal_triggers field) then
       let* expires := getattr_expires_after in
       let* due :=
         (match expires with
          | None => ret true
          | Some t => let* n := now in ret (t <? n)
          end) in
       if due then
         let* expiration := resolve_expiration expiration in
         setattr_expires_after expiration;;
         ret {| kw_cached := kw_cached kwargs;
                kw_recalculation_needed := kw_recalculation_needed kwargs;
                kw_expires_after := Some expiration |}
       else ret kwargs
     else ret kwargs) in
  if commit then db_update kwargs;; ret None
  else ret (Some kwargs).

(** [_get_FIELD] (lines 88-97).  [flag or (...)] reads the clock only when
    the flag is false and the expiration is not [None]. *)
Definition _get_FIELD (field : CachedField O) : M pyval :=
  let* val := getattr_cached in
  let* flag := getattr_recalculation_needed in
  let* flag :=
    (if pytrig_bool (temporal_triggers field) then
       let* expiration := getattr_expires_after in
       if flag then ret true
       else match expiration with
            | None => ret false
            | Some t => let* n := now in ret (t <? n)
            end
     else ret flag) in
  if flag then
    _recalculate_FIELD field PyNone true;;
    getattr_cached
  else ret val.

End Engine.

(** ** Reading a trace *)

Fixpoint calculate_calls (evs : list Event) : nat :=
  match evs with
  | [] => 0
  | CallCalculate :: evs => S (calculate_calls evs)
  | _ :: evs => calculate_calls evs
  end.

Fixpoint trigger_calls (evs : list Event) : nat :=
  match evs with
  | [] => 0
  | CallTrigger :: evs => S (trigger_calls evs)
  | _ :: evs => trigger_calls evs
  end.

(** The change sets handed to the store, one per [update] call. *)
Fixpoint updates (evs : list Event) : list Kwargs :=
  match evs with
  | [] => []
  | DbUpdate _ kw :: evs => kw :: updates evs
  | _ :: evs => updates evs
  end.

(** The job descriptors handed to the deferred executor. *)
Fixpoint delayed (evs : list Event) : list (string * string * Z * kwdict) :=
  match evs with
  | [] => []
  | Delay app obj key kw :: evs => (app, obj, key, kw) :: delayed evs
  | _ :: evs => delayed evs
  end.

(** The flag column as stored for the object's key. *)
Definition stored_recalculation_needed (s : State) : option bool :=
  r_recalculation_needed <$> db s !! pk (self s).

Definition stored_cached (s : State) : option pyval :=
  r_cached <$> db s !! pk (self s).

Definition stored_expires_after (s : State) : option (option Z) :=
  r_expires_after <$> db s !! pk (self s).

(** The update that only clears the flag (lines 66-67). *)
Definition flag_clear : Kwargs :=
  {| kw_cached := None; kw_recalculation_needed := Some false;
     kw_expires_after := None |}.

(** The update that only raises the flag (line 32). *)
Definition flag_raise : Kwargs :=
  {| kw_cached := None; kw_recalculation_needed := Some true;
     kw_expires_after := None |}.

(** The model name a deferred job is filed under (lines 105-107). *)
Definition dispatch_name (m : Meta) : string :=
  if proxy m then proxy_for_model_object_name m else object_name m.

(** The update that only writes the expiration (line 52). *)
Definition only_expiration (e : option Z) : Kwargs :=
  {| kw_cached := None; kw_recalculation_needed := None;
     kw_expires_after := Some e |}.

(** An expiration made absolute against a reading of the clock. *)
Definition to_absolute {O} `{RelativeOffset O} (e : pyexp O) (n : Z) : option Z :=
  match e with
  | PyNone => None
  | PyDatetime t => Some t
  | PyOffset o => Some (datetime_add n o)
  end.

(** Line 76, [not expires or expires < now()], against a clock reading. *)
Definition expiration_due (expires : option Z) (n : Z) : bool :=
  match expires with
  | None => true
  | Some t => t <? n
  end.

(** Python's [expiration or default]. *)
Definition py_or {O} `{RelativeOffset O} (expiration default : pyexp O) : pyexp O :=
  if pyexp_bool expiration then expiration else default.

(** The state of the object once its flag attribute is true and the clock
    has been read once more. *)
Definition flagged_one_tick_later (s : State) : State :=
  {| self := set_recalculation_needed true (self s); db := db s;
     trace := trace s; ticks := S (ticks s) |}.

(** ** Objects and their rows *)

(** The object holds what its row holds in the three columns. *)
Definition mirrors (i : Instance) (r : Row) : Prop :=
  cached_FIELD i = r_cached r
  ∧ FIELD_recalculation_needed i = r_recalculation_needed r
  ∧ FIELD_expires_after i = r_expires_after r.

(** The object is stored and holds what its row holds. *)
Definition in_sync (s : State) : Prop :=
  ∃ r, db s !! pk (self s) = Some r ∧ mirrors (self s) r.

(** The object read again from its row (left as it is when it has none). *)
Definition reloaded (s : State) : State :=
  match db s !! pk (self s) with
  | Some r =>
    {| self := {| pk := pk (self s); _meta := _meta (self s);
                  cached_FIELD := r_cached r;
                  FIELD_recalculation_needed := r_recalculation_needed r;
                  FIELD_expires_after := r_expires_after r |};
       db := db s; trace := trace s; ticks := ticks s |}
  | None => s
  end.

(** ** Naming and binding to a model class *)

(** The field classes of lines 226-291, and the model field each one
    wraps: its one base besides [CachedFieldMixin]. *)
Inductive FieldKind :=
| BigIntegerField | BooleanField | CharField | DateField | DateTimeField
| DecimalField | EmailField | FloatField | IntegerField | IPAddressField
| NullBooleanField | PositiveIntegerField | PositiveSmallIntegerField
| SlugField | SmallIntegerField | TextField | TimeField.

Inductive CachedClass :=
| CachedBigIntegerField | CachedBooleanField | CachedCharField
| CachedDateField | CachedDateTimeField | CachedDecimalField
| CachedEmailField | CachedFloatField | CachedIntegerField
| CachedIPAddressField | CachedNullBooleanField
| CachedPositiveIntegerField | CachedPositiveSmallIntegerField
| CachedSlugField | CachedSmallIntegerField | CachedTextField
| CachedTimeField.

(** Line 184: [(set(type(self).__bases__) - set((CachedFieldMixin,))).pop()]. *)
Definition proper_field_class (c : CachedClass) : FieldKind :=
  match c with
  | CachedBigIntegerField => BigIntegerField
  | CachedBooleanField => BooleanField
  | CachedCharField => CharField
  | CachedDateField => DateField
  | CachedDateTimeField => DateTimeField
  | CachedDecimalField => DecimalField
  | CachedEmailField => EmailField
  | CachedFloatField => FloatField
  | CachedIntegerField => IntegerField
  | CachedIPAddressField => IPAddressField
  | CachedNullBooleanField => NullBooleanField
  | CachedPositiveIntegerField => PositiveIntegerField
  | CachedPositiveSmallIntegerField => PositiveSmallIntegerField
  | CachedSlugField => SlugField
  | CachedSmallIntegerField => SmallIntegerField
  | CachedTextField => TextField
  | CachedTimeField => TimeField
  end.

(** The field object once line 176 has set [self.name]: its class, what
    [__init__] assigned (the arguments kept for the wrapped field, lines
    170-171, included) and the name. *)
Record BoundField (O : Type) := {
  bf_class : CachedClass;
  bf_config : CachedField O;
  init_args_for_field : list pyval;
  init_kwargs_for_field : kwdict;
  bf_name : string
}.
Arguments bf_class {O} _.
Arguments bf_config {O} _.
Arguments init_args_for_field {O} _.
Arguments init_kwargs_for_field {O} _.
Arguments bf_name {O} _.

(** The four name properties (lines 205-223): the name given to
    [__init__], else the one derived from the field's name. *)
Definition cached_field_name {O} (f : BoundField O) : string :=
  default ("cached_" +:+ bf_name f) (_cached_field_name (bf_config f)).

Definition recalculation_needed_field_name {O} (f : BoundField O) : string :=
  default (bf_name f +:+ "_recalculation_needed")
          (_recalculation_needed_field_name (bf_config f)).

Definition calculation_method_name {O} (f : BoundField O) : string :=
  default ("calculate_" +:+ bf_name f) (_calculation_method_name (bf_config f)).

Definition expiration_field_name {O} (f : BoundField O) : string :=
  default (bf_name f +:+ "_expires_after")
          (_expiration_field_name (bf_config f)).

(** The six functions of the module that a model class receives. *)
Inductive Func :=
| F_trigger_cache_recalculation
| F_set_FIELD
| F_get_FIELD
| F_recalculate_FIELD
| F_flag_FIELD_as_stale
| F_expire_FIELD_after.

(** [func.__name__]. *)
Definition func_name (f : Func) : string :=
  match f with
  | F_trigger_cache_recalculation => "trigger_cache_recalculation"
  | F_set_FIELD => "_set_FIELD"
  | F_get_FIELD => "_get_FIELD"
  | F_recalculate_FIELD => "_recalculate_FIELD"
  | F_flag_FIELD_as_stale => "_flag_FIELD_as_stale"
  | F_expire_FIELD_after => "_expire_FIELD_after"
  end.

(** The model fields the binding creates: the wrapped field with the kept
    arguments (line 185), [BooleanField(default=True, db_index=...)] (line
    189) and [DateTimeField(null=True, db_index=..., blank=True)] (line
    198). *)
Inductive FieldSpec :=
| ProperField (kind : FieldKind) (args : list pyval) (kwargs : kwdict)
| FlagField (db_index : bool)
| ExpireField (db_index : bool).

(** What an attribute of the model class can hold: one of the six
    functions, something of the class's own, [curry(target, field=self)],
    [property(fget, fset)], a model field. *)
Inductive ClassAttr (O : Type) :=
| AFunction (f : Func)
| AOwn (tag : string)
| ACurry (target : ClassAttr O) (field : BoundField O)
| AProperty (fget fset : ClassAttr O)
| AField (spec : FieldSpec).
Arguments AFunction {O} f.
Arguments AOwn {O} tag.
Arguments ACurry {O} target field.
Arguments AProperty {O} fget fset.
Arguments AField {O} spec.

(** The model class: the attributes [hasattr] and [getattr] see, and the
    calls [field.contribute_to_class(cls, name)] made to the model fields,
    in order (what Django does with them is its own). *)
Record Class (O : Type) := {
  attrs : gmap string (ClassAttr O);
  contributed : list (string * FieldSpec)
}.
Arguments attrs {O} _.
Arguments contributed {O} _.

Definition class_setattr {O} (cls : Class O) (name : string)
    (v : ClassAttr O) : Class O :=
  {| attrs := <[name := v]> (attrs cls); contributed := contributed cls |}.

Definition class_getattr {O} (cls : Class O) (name : string)
  : exn + ClassAttr O :=
  match attrs cls !! name with
  | Some v => inr v
  | None => inl (AttributeError name)
  end.

Definition field_contribute_to_class {O} (cls : Class O) (name : string)
    (spec : FieldSpec) : Class O :=
  {| attrs := attrs cls; contributed := contributed cls ++ [(name, spec)] |}.

(** The tuple of line 114. *)
Definition cached_field_methods : list Func :=
  [F_trigger_cache_recalculation; F_set_FIELD; F_get_FIELD;
   F_recalculate_FIELD; F_flag_FIELD_as_stale; F_expire_FIELD_after].

(** [ensure_class_has_cached_field_methods] (lines 112-118). *)
Definition ensure_class_has_cached_field_methods {O} (cls : Class O)
  : Class O :=
  fold_left
    (fun cls func =>
       match attrs cls !! func_name func with
       | Some _ => cls
       | None => class_setattr cls (func_name func) (AFunction func)
       end)
    cached_field_methods cls.

(** [contribute_to_class] (lines 174-203); it gives back the field with
    its name set and the class. *)
Definition contribute_to_class {O} `{RelativeOffset O}
    (self_class : CachedClass) (config : CachedField O)
    (args : list pyval) (kwargs : kwdict)
    (cls : Class O) (name : string) : exn + (BoundField O * Class O) :=
  let cls := ensure_class_has_cached_field_methods cls in
  let self := {| bf_class := self_class; bf_config := config;
                 init_args_for_field := args;
                 init_kwargs_for_field := kwargs; bf_name := name |} in
  match class_getattr cls "_recalculate_FIELD" with
  | inl e => inl e
  | inr recalculate =>
  let cls := class_setattr cls ("recalculate_" +:+ name)
               (ACurry recalculate self) in
  match class_getattr cls "_get_FIELD" with
  | inl e => inl e
  | inr fget =>
  match class_getattr cls "_set_FIELD" with
  | inl e => inl e
  | inr fset =>
  let cls := class_setattr cls name
               (AProperty (ACurry fget self) (ACurry fset self)) in
  let proper_field :=
    ProperField (proper_field_class self_class) args kwargs in
  let cls := class_setattr cls (cached_field_name self)
               (AField proper_field) in
  let cls := field_contribute_to_class cls (cached_field_name self)
               proper_field in
  let flag_field :=
    FlagField (db_index_on_recalculation_needed_field config) in
  let cls := class_setattr cls (recalculation_needed_field_name self)
               (AField flag_field) in
  let cls := field_contribute_to_class cls
               (recalculation_needed_field_name self) flag_field in
  match
    (if pytrig_bool (temporal_triggers config) then
       match class_getattr cls "_expire_FIELD_after" with
       | inl e => inl e
       | inr expire =>
         let cls := class_setattr cls ("expire_" +:+ name +:+ "_after")
                      (ACurry expire self) in
         let expire_field :=
           ExpireField (db_index_on_temporal_trigger_field config) in
         let cls := class_setattr cls (expiration_field_name self)
                      (AField expire_field) in
         inr (field_contribute_to_class cls (expiration_field_name self)
                expire_field)
       end
     else inr cls)
  with
  | inl e => inl e
  | inr cls =>
  match class_getattr cls "_flag_FIELD_as_stale" with
  | inl e => inl e
  | inr flag =>
    inr (self,
         class_setattr cls ("flag_" +:+ name +:+ "_as_stale")
           (ACurry flag self))
  end end end end end.

(** The names the binding sets on the class for a field called [name]
    that overrides none of them, and the method it will look up. *)
Definition default_names (name : string) : list string :=
  [ "recalculate_" +:+ name; name; "cached_" +:+ name;
    name +:+ "_recalculation_needed"; "expire_" +:+ name +:+ "_after";
    name +:+ "_expires_after"; "flag_" +:+ name +:+ "_as_stale";
    "calculate_" +:+ name ].

(** What [if name: self._name = name] keeps of a name argument: the
    argument when it is a non-empty string, else the derived name. *)
Definition chosen_name (given : option string) (derived : string) : string :=
  match given with
  | Some (String c n) => String c n
  | _ => derived
  end.

(** The names the binding sets on the class for a field, in the order of
    lines 177-203 (the two of the temporal branch included). *)
Definition installed_names {O} (f : BoundField O) : list string :=
  [ "recalculate_" +:+ bf_name f; bf_name f; cached_field_name f;
    recalculation_needed_field_name f;
    "expire_" +:+ bf_name f +:+ "_after"; expiration_field_name f;
    "flag_" +:+ bf_name f +:+ "_as_stale" ].

(** What the class has under the name of one of the six functions once
    they are ensured: its own attribute when it had one. *)
Definition method_of {O} (cls : Class O) (f : Func) : ClassAttr O :=
  default (AFunction f) (attrs cls !! func_name f).

(** ** A worked configuration

    An invoice model with a cached total: key 7, timedelta offsets, a clock
    that starts at 1000 and advances by one per reading. *)

Module Billing.

Definition hour : Z := 3600.

(** Settings that define the three names. *)
Definition settings : Settings Z :=
  {| CACHED_FIELD_DEFAULT_EXPIRATION := Some (PyOffset hour);
     CACHED_FIELD_CELERY_ASYNC_KWARGS := Some (Some []);
     CACHED_FIELD_EAGER_RECALCULATION := None |}.

(** Settings of a project that defines none of them. *)
Definition bare_settings : Settings Z :=
  {| CACHED_FIELD_DEFAULT_EXPIRATION := None;
     CACHED_FIELD_CELERY_ASYNC_KWARGS := None;
     CACHED_FIELD_EAGER_RECALCULATION := None |}.

Definition clock (n : nat) : Z := 1000 + Z.of_nat n.

Definition calculate (i : Instance) : exn + pyval := inr (VInt 42).

Definition failing_calculate (i : Instance) : exn + pyval :=
  inl (CalculationError "no lines").

Definition meta : Meta :=
  {| app_label := "billing"; object_name := "Invoice"; proxy := false;
     proxy_for_model_object_name := "" |}.

Definition field (temporal : bool) : CachedField Z :=
  {| temporal_triggers := TrigBool temporal;
     celery_async_kwargs := Some [("countdown", VInt 5)];
     db_index_on_temporal_trigger_field := false;
     db_index_on_recalculation_needed_field := false;
     _expiration_field_name := None;
     _calculation_method_name := None;
     _cached_field_name := None;
     _recalculation_needed_field_name := None |}.

Definition invoice (cached : pyval) (flag : bool) (expires : option Z)
  : Instance :=
  {| pk := 7; _meta := meta; cached_FIELD := cached;
     FIELD_recalculation_needed := flag; FIELD_expires_after := expires |}.

Definition row (cached : pyval) (flag : bool) (expires : option Z) : Row :=
  {| r_cached := cached; r_recalculation_needed := flag;
     r_expires_after := expires |}.

(** The object freshly loaded: its attributes are those of its row. *)
Definition loaded (cached : pyval) (flag : bool) (expires : option Z)
  : State :=
  {| self := invoice cached flag expires;
     db := {[ 7 := row cached flag expires ]};
     trace := []; ticks := 0 |}.

End Billing.

(** ** More of the worked configuration *)

Module Catalog.

(** An invoice that was never saved: no row has its key. *)
Definition unsaved : State :=
  {| self := Billing.invoice VNone true None; db := ∅; trace := [];
     ticks := 0 |}.

(** An invoice loaded before its row was flagged: the attribute is false,
    the row says true. *)
Definition behind : State :=
  {| self := Billing.invoice (VInt 3) false None;
     db := {[ 7 := Billing.row (VInt 3) true None ]};
     trace := []; ticks := 0 |}.

(** A field whose celery arguments came out as [None]. *)
Definition field_without_celery_kwargs : CachedField Z :=
  {| temporal_triggers := TrigBool false;
     celery_async_kwargs := None;
     db_index_on_temporal_trigger_field := false;
     db_index_on_recalculation_needed_field := false;
     _expiration_field_name := None;
     _calculation_method_name := None;
     _cached_field_name := None;
     _recalculation_needed_field_name := None |}.

(** A model class with nothing of the module on it yet. *)
Definition plain_class : Class Z := {| attrs := ∅; contributed := [] |}.

(** The field object of [total = CachedIntegerField(null=True)]. *)
Definition total : BoundField Z :=
  {| bf_class := CachedIntegerField; bf_config := Billing.field true;
     init_args_for_field := []; init_kwargs_for_field := [("null", VBool true)];
     bf_name := "total" |}.

End Catalog.

(** ** Properties *)

Section Properties.

Context {O : Type} `{RelativeOffset O}.
Variable settings : Settings O.
Variable clock : nat -> Z.
Variable calculate : Instance -> exn + pyval.

Ltac unfold_engine :=
  unfold _get_FIELD, _recalculate_FIELD, _expire_FIELD_after,
    _flag_FIELD_as_stale, _set_FIELD, resolve_expiration,
    trigger_cache_recalculation, call_calculate, settings_getattr, now,
    db_update, db_select_recalculation_needed, getattr_cached,
    getattr_recalculation_needed, getattr_expires_after, setattr_cached,
    setattr_recalculation_needed, setattr_expires_after, bind, ret, raise,
    log, with_self in *.

Ltac unfold_stored :=
  unfold stored_recalculation_needed, stored_cached, stored_expires_after in *.

(** Closes the conjuncts left once a run has been evaluated: the trace is
    put in the shape [old ++ events], stored columns are read through the
    updates. *)
Ltac finish :=
  repeat match goal with
  | |- _ ∧ _ => split
  | |- ∃ _, _ => eexists
  end;
  first
    [ reflexivity
    | intros; try discriminate; cbn; unfold_stored; cbn;
      rewrite <- ?app_assoc, ?lookup_alter_eq; cbn;
      try match goal with
      | Hrow : _ !! _ = Some _ |- _ => rewrite ?Hrow
      end;
      try reflexivity ].

(** No change set of the listed updates sets the flag. *)
Ltac no_flag_raised :=
  match goal with
  | Hin : In _ _ |- _ => cbn in Hin; intuition (subst; discriminate)
  end.

Lemma flag_clear_keeps_value_and_expiration
    (m : gmap Z Row) (k j : Z) (row : Row) :
  m !! j = Some row →
  ∃ row', alter (apply_kwargs flag_clear) k m !! j = Some row'
          ∧ r_cached row' = r_cached row
          ∧ r_expires_after row' = r_expires_after row.
Proof.
  intros Hj. rewrite lookup_alter. case_decide; subst; rewrite Hj; cbn; eauto.
Qed.

Lemma apply_kwargs_empty (r : Row) : apply_kwargs kw_empty r = r.
Proof. by destruct r. Qed.

Lemma alter_kw_empty (m : gmap Z Row) (k : Z) :
  alter (apply_kwargs kw_empty) k m = m.
Proof. apply alter_id. intros r _. apply apply_kwargs_empty. Qed.

(** C1: a read of an object whose flag attribute is true, with a
    calculation method that returns [V], returns [V]; afterwards the flag is
    false on the object and in its row, [V] is the cached value of both,
    and the calculation method was called exactly once.  The row exists,
    and the settings define a default expiration when the field has
    temporal triggers (line 77 reads it). *)
Theorem read_flagged_recalculates_once
    (field : CachedField O) (s : State) (V : pyval) (row : Row) :
  FIELD_recalculation_needed (self s) = true →
  calculate (self s) = inr V →
  db s !! pk (self s) = Some row →
  (pytrig_bool (temporal_triggers field) = true →
   is_Some (CACHED_FIELD_DEFAULT_EXPIRATION settings)) →
  ∃ s' evs,
    _get_FIELD settings clock calculate field s = Return V s'
    ∧ FIELD_recalculation_needed (self s') = false
    ∧ stored_recalculation_needed s' = Some false
    ∧ cached_FIELD (self s') = V
    ∧ stored_cached s' = Some V
    ∧ trace s' = trace s ++ evs
    ∧ calculate_calls evs = 1%nat.
Proof.
  intros Hflag Hcalc Hrow Hcfg. unfold_engine. cbn. rewrite Hflag.
  destruct (pytrig_bool (temporal_triggers field)); cbn; rewrite Hcalc; cbn.
  - destruct Hcfg as [d Hd]; [reflexivity|]. rewrite Hd.
    destruct (FIELD_expires_after (self s)) as [t|]; cbn;
      [destruct (t <? clock (ticks s)); cbn|]; try destruct d; cbn; finish.
  - finish.
Qed.

(** C2: when the calculation method raises during a committed
    recalculation, the exception reaches the caller; the operation has
    issued exactly one update, the one clearing the flag before the
    computation, the in-memory object is untouched, and no row has had its
    cached value or its expiration changed. *)
Theorem recalculate_failure_persists_only_flag_clear
    (field : CachedField O) (expiration : pyexp O) (s : State) (e : exn) :
  calculate (self s) = inl e →
  ∃ s',
    _recalculate_FIELD settings clock calculate field expiration true s
      = Raise e s'
    ∧ self s' = self s
    ∧ trace s' = trace s ++ [DbUpdate (pk (self s)) flag_clear; CallCalculate]
    ∧ db s' = alter (apply_kwargs flag_clear) (pk (self s)) (db s)
    ∧ ∀ k row, db s !! k = Some row →
        ∃ row', db s' !! k = Some row'
                ∧ r_cached row' = r_cached row
                ∧ r_expires_after row' = r_expires_after row.
Proof.
  intros Hcalc. unfold_engine. cbn. rewrite Hcalc.
  eexists. split; [reflexivity|]. cbn. rewrite <- app_assoc.
  repeat split; try reflexivity.
  intros k row Hk. by apply flag_clear_keeps_value_and_expiration.
Qed.

(** C10: a read of an object whose flag attribute is false and, when the
    field has temporal triggers, whose expiration is [None] or not before
    the clock, returns the cached value as it is, whatever it is ([None]
    included): the object, the table and the trace are unchanged, so the
    calculation method was not called and nothing was written. *)
Theorem read_unflagged_returns_cached (field : CachedField O) (s : State) :
  FIELD_recalculation_needed (self s) = false →
  (pytrig_bool (temporal_triggers field) = true →
   ∀ t, FIELD_expires_after (self s) = Some t → clock (ticks s) ≤ t) →
  ∃ s',
    _get_FIELD settings clock calculate field s
      = Return (cached_FIELD (self s)) s'
    ∧ self s' = self s
    ∧ db s' = db s
    ∧ trace s' = trace s.
Proof.
  intros Hflag Hexp. unfold_engine. cbn. rewrite Hflag.
  destruct (pytrig_bool (temporal_triggers field)); cbn; [|finish].
  destruct (FIELD_expires_after (self s)) as [t|]; cbn; [|finish].
  specialize (Hexp eq_refl t eq_refl).
  destruct (t <? clock (ticks s)) eqn:E; [apply Z.ltb_lt in E; lia|].
  finish.
Qed.

(** C4: a read of an object whose flag attribute is false but whose
    expiration is set and strictly before the clock, on a field with
    temporal triggers, has the outcome of the read of the same object with
    the flag true, taken once the clock has been read: the same result and
    final state when the calculation method returns (the same value [V] in
    both), the same exception, table and trace when it raises.  It calls
    the calculation method exactly once, none of its updates writes the
    flag as true, and when the calculation method returns [V] it returns
    [V] and leaves the flag false on the object and in the row. *)
Theorem read_expired_behaves_as_flagged
    (field : CachedField O) (s : State) (t : Z) :
  FIELD_recalculation_needed (self s) = false →
  pytrig_bool (temporal_triggers field) = true →
  FIELD_expires_after (self s) = Some t →
  t < clock (ticks s) →
  (∀ V,
     calculate (self s) = inr V →
     calculate (set_recalculation_needed true (self s)) = inr V →
     _get_FIELD settings clock calculate field s
     = _get_FIELD settings clock calculate field (flagged_one_tick_later s))
  ∧ (∀ e,
       calculate (self s) = inl e →
       calculate (set_recalculation_needed true (self s)) = inl e →
       ∃ s1 s2,
         _get_FIELD settings clock calculate field s = Raise e s1
         ∧ _get_FIELD settings clock calculate field (flagged_one_tick_later s)
           = Raise e s2
         ∧ db s1 = db s2 ∧ trace s1 = trace s2 ∧ ticks s1 = ticks s2)
  ∧ (∃ evs,
       trace (final_state (_get_FIELD settings clock calculate field s))
         = trace s ++ evs
       ∧ calculate_calls evs = 1%nat
       ∧ ∀ kw, In kw (updates evs) → kw_recalculation_needed kw ≠ Some true)
  ∧ (∀ V row,
       calculate (self s) = inr V →
       db s !! pk (self s) = Some row →
       is_Some (CACHED_FIELD_DEFAULT_EXPIRATION settings) →
       ∃ s',
         _get_FIELD settings clock calculate field s = Return V s'
         ∧ FIELD_recalculation_needed (self s') = false
         ∧ stored_recalculation_needed s' = Some false
         ∧ stored_cached s' = Some V).
Proof.
  intros Hflag Htrig Hexp Hlt. apply Z.ltb_lt in Hlt.
  split; [|split; [|split]].
  - intros V Hcalc Hcalc'. unfold flagged_one_tick_later. unfold_engine.
    cbn. rewrite Htrig, Hflag. cbn. rewrite Hcalc', Hexp. cbn.
    rewrite Hlt. cbn. rewrite Hcalc. cbn. rewrite ?Hexp. reflexivity.
  - intros e Hcalc Hcalc'. unfold flagged_one_tick_later. unfold_engine.
    cbn. rewrite Htrig, Hflag. cbn. rewrite Hcalc', Hexp. cbn.
    rewrite Hlt. cbn. rewrite Hcalc. cbn. finish.
  - unfold_engine. cbn. rewrite Hflag, Htrig, Hexp. cbn. rewrite Hlt. cbn.
    destruct (calculate (self s)) as [e|V]; cbn.
    + finish. no_flag_raised.
    + rewrite Hexp. cbn.
      destruct (t <? clock (S (ticks s))); cbn;
        [destruct (CACHED_FIELD_DEFAULT_EXPIRATION settings) as [[| |]|]; cbn|];
        finish; no_flag_raised.
  - intros V row Hcalc Hrow [d Hd]. unfold_engine. cbn.
    rewrite Hflag, Htrig, Hexp. cbn. rewrite Hlt. cbn.
    rewrite Hcalc. cbn. rewrite ?Hexp. cbn.
    destruct (t <? clock (S (ticks s))); cbn;
      [rewrite Hd; destruct d; cbn|]; finish.
Qed.

(** C3: when the calculation method returns [V], an uncommitted
    recalculation returns a change set holding [V] as the cached value, the
    flag as false and, exactly when the field has temporal triggers and the
    current expiration is [None] or before the clock, the new expiration;
    it leaves the table alone and issues no update.  A committed one
    returns nothing and issues two updates: the flag clear of lines 66-67,
    then a change set with the same value and expiration entries and no
    flag entry.  The settings define a default expiration when line 77
    reads it. *)
Theorem recalculate_uncommitted_returns_change_set
    (field : CachedField O) (expiration : pyexp O) (s : State) (V : pyval) :
  calculate (self s) = inr V →
  (pytrig_bool (temporal_triggers field) = true →
   pyexp_bool expiration = false →
   is_Some (CACHED_FIELD_DEFAULT_EXPIRATION settings)) →
  let due :=
    pytrig_bool (temporal_triggers field)
    && expiration_due (FIELD_expires_after (self s)) (clock (ticks s)) in
  (∃ s' kw,
     _recalculate_FIELD settings clock calculate field expiration false s
       = Return (Some kw) s'
     ∧ kw_cached kw = Some V
     ∧ kw_recalculation_needed kw = Some false
     ∧ kw_expires_after kw
       = (if due then Some (FIELD_expires_after (self s')) else None)
     ∧ db s' = db s
     ∧ trace s' = trace s ++ [CallCalculate])
  ∧ (∃ s' kw,
       _recalculate_FIELD settings clock calculate field expiration true s
         = Return None s'
       ∧ trace s' = trace s ++ [DbUpdate (pk (self s)) flag_clear;
                                CallCalculate;
                                DbUpdate (pk (self s)) kw]
       ∧ kw_cached kw = Some V
       ∧ kw_recalculation_needed kw = None
       ∧ kw_expires_after kw
         = (if due then Some (FIELD_expires_after (self s')) else None)).
Proof.
  intros Hcalc Hcfg. unfold expiration_due.
  split; unfold_engine; cbn; rewrite Hcalc; cbn;
    (destruct (pytrig_bool (temporal_triggers field)); cbn; [|finish]);
    (destruct (FIELD_expires_after (self s)) as [t|]; cbn;
       [destruct (t <? clock (ticks s)); cbn; [|finish]|]);
    (destruct (pyexp_bool expiration) eqn:E; cbn;
       [destruct expiration; try discriminate E
       |destruct (Hcfg eq_refl eq_refl) as [d ->]; destruct d]);
    cbn; finish.
Qed.

(** X27: in a recalculation on a field with temporal triggers whose
    calculation method returns, when the current expiration is [None] or
    before the clock the new expiration is [expiration or default] by
    Python's truth values (an explicit zero offset gives way to the
    default), made absolute against the next reading of the clock when it
    is an offset;
    it is assigned to the object and entered in the change set (the one
    returned when not committing, the one of the final update, which
    reaches the row, when committing).  When the current expiration is set
    and not before the clock, the object and the row keep it and the
    change set has no expiration entry.  The settings define the default
    when the explicit expiration is false. *)
Theorem recalculate_renews_due_expiration
    (field : CachedField O) (expiration d : pyexp O) (commit : bool)
    (s : State) (V : pyval) :
  pytrig_bool (temporal_triggers field) = true →
  calculate (self s) = inr V →
  (pyexp_bool expiration = false →
   CACHED_FIELD_DEFAULT_EXPIRATION settings = Some d) →
  ∃ s' kw,
    _recalculate_FIELD settings clock calculate field expiration commit s
      = Return (if commit then None else Some kw) s'
    ∧ trace s'
      = trace s ++ (if commit
                    then [DbUpdate (pk (self s)) flag_clear; CallCalculate;
                          DbUpdate (pk (self s)) kw]
                    else [CallCalculate])
    ∧ match FIELD_expires_after (self s) with
      | None =>
        let new := to_absolute (py_or expiration d) (clock (ticks s)) in
        FIELD_expires_after (self s') = new
        ∧ kw_expires_after kw = Some new
        ∧ (commit = true → ∀ row, db s !! pk (self s) = Some row →
           stored_expires_after s' = Some new)
      | Some t =>
        if t <? clock (ticks s) then
          let new := to_absolute (py_or expiration d) (clock (S (ticks s))) in
          FIELD_expires_after (self s') = new
          ∧ kw_expires_after kw = Some new
          ∧ (commit = true → ∀ row, db s !! pk (self s) = Some row →
             stored_expires_after s' = Some new)
        else
          FIELD_expires_after (self s') = Some t
          ∧ kw_expires_after kw = None
          ∧ stored_expires_after s' = stored_expires_after s
      end.
Proof.
  intros Htrig Hcalc Hcfg. unfold py_or.
  destruct commit; unfold_engine; cbn; rewrite Hcalc; cbn; rewrite Htrig; cbn;
    (destruct (FIELD_expires_after (self s)) as [t|] eqn:Hexp; cbn;
       [destruct (t <? clock (ticks s)); cbn|]);
    try (destruct (pyexp_bool expiration) eqn:E; cbn;
         [destruct expiration; try discriminate E
         |rewrite (Hcfg eq_refl); destruct d]);
    cbn; finish; try exact Hexp.
  all: unfold_stored; cbn; rewrite ?lookup_alter_eq;
    destruct (db s !! pk (self s)) as [[]|]; reflexivity.
Qed.

(** X28: [expire_FIELD_after] takes [expiration or default] by Python's
    truth values (an explicit zero offset gives way to the default), makes
    it absolute against the clock when it is an offset, assigns it to the
    expiration attribute and issues one update, of the expiration column
    only.  The flag and the cached value keep their values on the object
    and in every row, and the run does not depend on them: it commutes
    with any earlier assignment of the two attributes.  The settings
    define the default when the explicit expiration is false. *)
Theorem expire_after_writes_only_expiration
    (field : CachedField O) (expiration d : pyexp O) (s : State) :
  (pyexp_bool expiration = false →
   CACHED_FIELD_DEFAULT_EXPIRATION settings = Some d) →
  let new := to_absolute (py_or expiration d) (clock (ticks s)) in
  ∃ s',
    _expire_FIELD_after settings clock field expiration s = Return tt s'
    ∧ self s' = set_expires_after new (self s)
    ∧ cached_FIELD (self s') = cached_FIELD (self s)
    ∧ FIELD_recalculation_needed (self s')
      = FIELD_recalculation_needed (self s)
    ∧ trace s' = trace s ++ [DbUpdate (pk (self s)) (only_expiration new)]
    ∧ db s' = alter (apply_kwargs (only_expiration new)) (pk (self s)) (db s)
    ∧ (∀ k row, db s !! k = Some row →
         ∃ row', db s' !! k = Some row'
                 ∧ r_cached row' = r_cached row
                 ∧ r_recalculation_needed row' = r_recalculation_needed row)
    ∧ (∀ v b,
         _expire_FIELD_after settings clock field expiration
           (with_self (λ i, set_cached v (set_recalculation_needed b i)) s)
         = Return tt
             (with_self (λ i, set_cached v (set_recalculation_needed b i)) s')).
Proof.
  intros Hcfg. unfold py_or, only_expiration.
  unfold_engine; cbn.
  destruct (pyexp_bool expiration) eqn:E; cbn;
    [destruct expiration; try discriminate E
    |rewrite (Hcfg eq_refl); destruct d];
    cbn; finish.
  all: rewrite lookup_alter; case_decide; subst;
    match goal with Hk : _ !! _ = Some _ |- _ => rewrite Hk end; cbn; eauto.
Qed.

(** C7: a recalculation given an explicit offset of zero, on a field
    with temporal triggers whose expiration is due, does not use that
    argument: line 77 tests it with [or], a zero offset is false, and the
    default of the settings is taken instead.  The run is the one of a
    call without the argument; the expiration assigned to the object and
    entered in the change set is the default's, hence not the explicit
    argument's wherever the two resolve differently. *)
Theorem recalculate_zero_offset_takes_default
    (field : CachedField O) (o : O) (d : pyexp O) (commit : bool)
    (s : State) (V : pyval) :
  pytrig_bool (temporal_triggers field) = true →
  calculate (self s) = inr V →
  expiration_due (FIELD_expires_after (self s)) (clock (ticks s)) = true →
  offset_bool o = false →
  CACHED_FIELD_DEFAULT_EXPIRATION settings = Some d →
  let n := match FIELD_expires_after (self s) with
           | None => clock (ticks s)
           | Some _ => clock (S (ticks s))
           end in
  ∃ s' kw,
    _recalculate_FIELD settings clock calculate field (PyOffset o) commit s
      = Return (if commit then None else Some kw) s'
    ∧ _recalculate_FIELD settings clock calculate field (PyOffset o) commit s
      = _recalculate_FIELD settings clock calculate field PyNone commit s
    ∧ FIELD_expires_after (self s') = to_absolute d n
    ∧ kw_expires_after kw = Some (to_absolute d n)
    ∧ trace s'
      = trace s ++ (if commit
                    then [DbUpdate (pk (self s)) flag_clear; CallCalculate;
                          DbUpdate (pk (self s)) kw]
                    else [CallCalculate])
    ∧ (to_absolute d n ≠ to_absolute (PyOffset o) n →
       FIELD_expires_after (self s') ≠ to_absolute (PyOffset o) n).
Proof.
  intros Htrig Hcalc Hdue Hzero Hd n. subst n.
  unfold expiration_due in Hdue.
  destruct commit; unfold_engine; cbn; rewrite Hcalc; cbn; rewrite Htrig; cbn;
    (destruct (FIELD_expires_after (self s)) as [t|] eqn:Hexp; cbn;
       [rewrite Hdue; cbn|]);
    rewrite Hzero, Hd; cbn; destruct d; cbn;
    do 2 eexists; repeat apply conj; try reflexivity;
    try (cbn; rewrite <- ?app_assoc; reflexivity).
  all: try reflexivity.
  all: intros Hne; exact Hne.
Qed.

(** C9: [expire_FIELD_after] given an explicit offset of zero does not
    use that argument: line 48 tests it with [or], a zero offset is
    false, and the default of the settings is taken instead.  The run is
    the one of a call without the argument; the expiration assigned and
    written by the one update is the default's, hence not the explicit
    argument's wherever the two resolve differently. *)
Theorem expire_after_zero_offset_takes_default
    (field : CachedField O) (o : O) (d : pyexp O) (s : State) :
  offset_bool o = false →
  CACHED_FIELD_DEFAULT_EXPIRATION settings = Some d →
  let new := to_absolute d (clock (ticks s)) in
  ∃ s',
    _expire_FIELD_after settings clock field (PyOffset o) s = Return tt s'
    ∧ _expire_FIELD_after settings clock field (PyOffset o) s
      = _expire_FIELD_after settings clock field PyNone s
    ∧ FIELD_expires_after (self s') = new
    ∧ trace s' = trace s ++ [DbUpdate (pk (self s)) (only_expiration new)]
    ∧ (∀ row, db s !! pk (self s) = Some row →
              stored_expires_after s' = Some new)
    ∧ (new ≠ to_absolute (PyOffset o) (clock (ticks s)) →
       FIELD_expires_after (self s')
       ≠ to_absolute (PyOffset o) (clock (ticks s))).
Proof.
  intros Hzero Hd new. subst new. unfold only_expiration.
  unfold_engine; cbn. rewrite Hzero, Hd. cbn.
  destruct d; cbn; eexists; repeat apply conj; try reflexivity;
    try (intros row Hrow; unfold_stored; cbn;
         rewrite lookup_alter_eq, Hrow; reflexivity);
    intros Hne; exact Hne.
Qed.

(** C5: on a stored object, flagging as stale calls
    [trigger_cache_recalculation] exactly once when committing with
    [and_recalculate] resolved to true, whether the stored flag was already
    true (the update then has an empty change set) or not, and never when
    not committing or when [and_recalculate] resolves to false.  The call
    files one job under the model's dispatch name, the key and the field's
    celery arguments (none when those are [None], which raises). *)
Theorem flag_as_stale_triggers_once
    (field : CachedField O) (and_recalculate : option bool) (commit : bool)
    (s : State) (row : Row) :
  db s !! pk (self s) = Some row →
  let go := commit && resolve_and_recalculate settings and_recalculate in
  ∃ evs,
    trace (final_state
             (_flag_FIELD_as_stale settings field and_recalculate commit s))
      = trace s ++ evs
    ∧ trigger_calls evs = (if go then 1 else 0)%nat
    ∧ updates evs
      = (if commit
         then [if r_recalculation_needed row then kw_empty else flag_raise]
         else [])
    ∧ delayed evs
      = (if go then
           match celery_async_kwargs field with
           | Some kw => [(app_label (_meta (self s)),
                          dispatch_name (_meta (self s)), pk (self s), kw)]
           | None => []
           end
         else []).
Proof.
  intros Hrow. unfold dispatch_name, flag_raise. unfold_engine. cbn.
  rewrite Hrow. cbn.
  destruct (r_recalculation_needed row), commit; cbn;
    try (destruct (resolve_and_recalculate settings and_recalculate); cbn;
         try destruct (celery_async_kwargs field); cbn);
    finish.
Qed.

(** C6: on a stored object, two calls in a row that flag as stale with
    [and_recalculate] resolved to false, the first one committing: both
    return; the second one queries the store, finds the flag true and
    returns the empty change set; the stored flag is true after the first
    call and after the second, and the second call changes neither the
    object nor the table.  The flag attribute is true as well when the
    object agreed with its row at the start. *)
Theorem flag_as_stale_twice_is_idempotent
    (field : CachedField O) (a1 a2 : option bool) (commit2 : bool)
    (s : State) (row : Row) :
  db s !! pk (self s) = Some row →
  resolve_and_recalculate settings a1 = false →
  resolve_and_recalculate settings a2 = false →
  ∃ kw1 s1 s2,
    _flag_FIELD_as_stale settings field a1 true s = Return kw1 s1
    ∧ _flag_FIELD_as_stale settings field a2 commit2 s1 = Return kw_empty s2
    ∧ stored_recalculation_needed s1 = Some true
    ∧ stored_recalculation_needed s2 = Some true
    ∧ self s2 = self s1
    ∧ db s2 = db s1
    ∧ trace s2 = trace s1 ++ DbSelect (pk (self s))
                          :: (if commit2
                              then [DbUpdate (pk (self s)) kw_empty]
                              else [])
    ∧ (FIELD_recalculation_needed (self s) = r_recalculation_needed row →
       FIELD_recalculation_needed (self s2) = true).
Proof.
  intros Hrow Ha1 Ha2. unfold_engine. cbn. rewrite Hrow, Ha1. cbn.
  destruct row as [c [] e], commit2; cbn; rewrite ?alter_kw_empty;
    (eexists _, _, _; split; [reflexivity|]); cbn;
    rewrite ?lookup_alter_eq, Hrow, ?Ha2; cbn;
    rewrite ?alter_kw_empty; finish; assumption.
Qed.

(** C8, as the code has it: constructing a field without asking for
    temporal triggers, under settings that do not define
    [CACHED_FIELD_DEFAULT_EXPIRATION], raises [AttributeError] at line 158
    and yields no field. *)
Theorem init_without_default_expiration_raises
    (calculation_method_name cached_field_name
       recalculation_needed_field_name : option string)
    (db_index_on_temporal_trigger_field_arg
       db_index_on_recalculation_needed_field_arg : bool)
    (expiration_field_name : option string)
    (celery_async_kwargs_arg : pykwargs) :
  CACHED_FIELD_DEFAULT_EXPIRATION settings = None →
  CachedFieldMixin__init__ settings calculation_method_name cached_field_name
    recalculation_needed_field_name false
    db_index_on_temporal_trigger_field_arg
    db_index_on_recalculation_needed_field_arg
    expiration_field_name celery_async_kwargs_arg
  = inl (AttributeError "CACHED_FIELD_DEFAULT_EXPIRATION").
Proof. intros Hnone. unfold CachedFieldMixin__init__. by rewrite Hnone. Qed.

(** X24: the same [getattr] on the read path (line 77): under settings that do
    not define the default expiration, on a field whose temporal triggers
    were asked for explicitly, the read of a flagged object with no
    expiration stops there, after the flag was cleared in the row and
    before the new value is stored. *)
Lemma read_flagged_raises_without_default_expiration
    (field : CachedField O) (s : State) (V : pyval) (row : Row) :
  CACHED_FIELD_DEFAULT_EXPIRATION settings = None →
  pytrig_bool (temporal_triggers field) = true →
  FIELD_recalculation_needed (self s) = true →
  FIELD_expires_after (self s) = None →
  calculate (self s) = inr V →
  db s !! pk (self s) = Some row →
  ∃ s',
    _get_FIELD settings clock calculate field s
      = Raise (AttributeError "CACHED_FIELD_DEFAULT_EXPIRATION") s'
    ∧ stored_recalculation_needed s' = Some false
    ∧ stored_cached s' = Some (r_cached row).
Proof.
  intros Hnone Htrig Hflag Hexp Hcalc Hrow. unfold_engine. cbn.
  rewrite Hflag, Htrig. cbn. rewrite Hcalc. cbn. rewrite Hexp. cbn.
  rewrite Hnone. cbn. finish.
Qed.

(** X25: where the settings do define both names, construction without a
    request for temporal triggers succeeds and the field's
    [temporal_triggers] has the truth value of the default expiration. *)
Lemma init_falls_back_to_default_expiration
    (calculation_method_name cached_field_name
       recalculation_needed_field_name : option string)
    (db_index_on_temporal_trigger_field_arg
       db_index_on_recalculation_needed_field_arg : bool)
    (expiration_field_name : option string)
    (celery_async_kwargs_arg : pykwargs) (d : pyexp O) (k : pykwargs) :
  CACHED_FIELD_DEFAULT_EXPIRATION settings = Some d →
  CACHED_FIELD_CELERY_ASYNC_KWARGS settings = Some k →
  ∃ field,
    CachedFieldMixin__init__ settings calculation_method_name cached_field_name
      recalculation_needed_field_name false
      db_index_on_temporal_trigger_field_arg
      db_index_on_recalculation_needed_field_arg
      expiration_field_name celery_async_kwargs_arg
    = inr field
    ∧ pytrig_bool (temporal_triggers field) = pyexp_bool d.
Proof.
  intros Hd Hk. unfold CachedFieldMixin__init__. rewrite Hd, Hk.
  destruct (pykwargs_bool celery_async_kwargs_arg); eexists; split;
    reflexivity.
Qed.

End Properties.

(** ** The properties at the worked configuration *)

Lemma read_flagged_recalculates_once_witness :
  ∃ s' evs,
    _get_FIELD Billing.settings Billing.clock Billing.calculate (Billing.field true)
      (Billing.loaded VNone true None) = Return (VInt 42) s'
    ∧ FIELD_recalculation_needed (self s') = false
    ∧ stored_recalculation_needed s' = Some false
    ∧ cached_FIELD (self s') = VInt 42
    ∧ stored_cached s' = Some (VInt 42)
    ∧ trace s' = trace (Billing.loaded VNone true None) ++ evs
    ∧ calculate_calls evs = 1%nat.
Proof.
  apply (read_flagged_recalculates_once Billing.settings Billing.clock
           Billing.calculate (Billing.field true) (Billing.loaded VNone true None)
           (VInt 42) (Billing.row VNone true None)).
  - reflexivity.
  - reflexivity.
  - reflexivity.
  - intros _. eexists. reflexivity.
Defined.

Lemma recalculate_failure_persists_only_flag_clear_witness :
  ∃ s',
    _recalculate_FIELD Billing.settings Billing.clock Billing.failing_calculate
      (Billing.field true) PyNone true (Billing.loaded (VInt 3) true None)
      = Raise (CalculationError "no lines") s'
    ∧ self s' = self (Billing.loaded (VInt 3) true None)
    ∧ trace s' = [DbUpdate 7 flag_clear; CallCalculate]
    ∧ db s' = alter (apply_kwargs flag_clear) 7
                (db (Billing.loaded (VInt 3) true None))
    ∧ ∀ k row, db (Billing.loaded (VInt 3) true None) !! k = Some row →
        ∃ row', db s' !! k = Some row'
                ∧ r_cached row' = r_cached row
                ∧ r_expires_after row' = r_expires_after row.
Proof.
  apply (recalculate_failure_persists_only_flag_clear Billing.settings Billing.clock
           Billing.failing_calculate (Billing.field true) PyNone
           (Billing.loaded (VInt 3) true None) (CalculationError "no lines")).
  reflexivity.
Defined.

Lemma recalculate_uncommitted_returns_change_set_witness :
  ∃ s' kw,
    _recalculate_FIELD Billing.settings Billing.clock Billing.calculate
      (Billing.field true) PyNone false (Billing.loaded VNone true None)
      = Return (Some kw) s'
    ∧ kw_cached kw = Some (VInt 42)
    ∧ kw_recalculation_needed kw = Some false
    ∧ kw_expires_after kw = Some (FIELD_expires_after (self s'))
    ∧ db s' = db (Billing.loaded VNone true None)
    ∧ trace s' = trace (Billing.loaded VNone true None) ++ [CallCalculate].
Proof.
  destruct (recalculate_uncommitted_returns_change_set Billing.settings Billing.clock
              Billing.calculate (Billing.field true) PyNone
              (Billing.loaded VNone true None) (VInt 42)) as [W _].
  - reflexivity.
  - intros _ _. eexists. reflexivity.
  - exact W.
Defined.

Lemma read_expired_behaves_as_flagged_witness :
  _get_FIELD Billing.settings Billing.clock Billing.calculate (Billing.field true)
    (Billing.loaded (VInt 3) false (Some 500))
  = _get_FIELD Billing.settings Billing.clock Billing.calculate (Billing.field true)
      (flagged_one_tick_later (Billing.loaded (VInt 3) false (Some 500))).
Proof.
  apply (proj1 (read_expired_behaves_as_flagged Billing.settings Billing.clock
                  Billing.calculate (Billing.field true)
                  (Billing.loaded (VInt 3) false (Some 500)) 500
                  eq_refl eq_refl eq_refl eq_refl) (VInt 42));
    reflexivity.
Defined.

Lemma flag_as_stale_triggers_once_witness :
  ∃ evs,
    trace (final_state
             (_flag_FIELD_as_stale Billing.settings (Billing.field false) None true
                (Billing.loaded (VInt 3) true None)))
      = trace (Billing.loaded (VInt 3) true None) ++ evs
    ∧ trigger_calls evs = 1%nat
    ∧ updates evs = [kw_empty]
    ∧ delayed evs = [("billing", "Invoice", 7, [("countdown", VInt 5)])].
Proof.
  apply (flag_as_stale_triggers_once Billing.settings (Billing.field false) None true
           (Billing.loaded (VInt 3) true None) (Billing.row (VInt 3) true None)).
  reflexivity.
Defined.

Lemma flag_as_stale_twice_is_idempotent_witness :
  ∃ kw1 s1 s2,
    _flag_FIELD_as_stale Billing.settings (Billing.field false) (Some false) true
      (Billing.loaded (VInt 3) false None) = Return kw1 s1
    ∧ _flag_FIELD_as_stale Billing.settings (Billing.field false) (Some false) true s1
      = Return kw_empty s2
    ∧ stored_recalculation_needed s1 = Some true
    ∧ stored_recalculation_needed s2 = Some true
    ∧ self s2 = self s1
    ∧ db s2 = db s1
    ∧ trace s2 = trace s1 ++ [DbSelect 7; DbUpdate 7 kw_empty]
    ∧ (false = false → FIELD_recalculation_needed (self s2) = true).
Proof.
  apply (flag_as_stale_twice_is_idempotent Billing.settings (Billing.field false)
           (Some false) (Some false) true (Billing.loaded (VInt 3) false None)
           (Billing.row (VInt 3) false None));
    reflexivity.
Defined.

Lemma recalculate_renews_due_expiration_witness :
  ∃ s' kw,
    _recalculate_FIELD Billing.settings Billing.clock Billing.calculate
      (Billing.field true) PyNone true (Billing.loaded VNone true None)
      = Return None s'
    ∧ trace s' = trace (Billing.loaded VNone true None)
                 ++ [DbUpdate 7 flag_clear; CallCalculate; DbUpdate 7 kw]
    ∧ FIELD_expires_after (self s') = Some (1000 + Billing.hour)
    ∧ kw_expires_after kw = Some (Some (1000 + Billing.hour))
    ∧ (true = true →
       ∀ row, db (Billing.loaded VNone true None) !! 7 = Some row →
       stored_expires_after s' = Some (Some (1000 + Billing.hour))).
Proof.
  exact (recalculate_renews_due_expiration Billing.settings Billing.clock
           Billing.calculate (Billing.field true) PyNone (PyOffset Billing.hour) true
           (Billing.loaded VNone true None) (VInt 42) eq_refl eq_refl
           (fun _ => eq_refl)).
Defined.

Lemma init_without_default_expiration_raises_witness :
  CachedFieldMixin__init__ Billing.bare_settings None None None false false false
    None (Some [("countdown", VInt 5)])
  = inl (AttributeError "CACHED_FIELD_DEFAULT_EXPIRATION").
Proof.
  apply (init_without_default_expiration_raises Billing.bare_settings).
  reflexivity.
Defined.

Lemma expire_after_writes_only_expiration_witness :
  ∃ s',
    _expire_FIELD_after Billing.settings Billing.clock (Billing.field true)
      PyNone (Billing.loaded (VInt 3) false None) = Return tt s'
    ∧ self s' = set_expires_after (Some (1000 + Billing.hour))
                  (self (Billing.loaded (VInt 3) false None))
    ∧ cached_FIELD (self s') = VInt 3
    ∧ FIELD_recalculation_needed (self s') = false
    ∧ trace s' = [DbUpdate 7 (only_expiration (Some (1000 + Billing.hour)))]
    ∧ stored_cached s' = Some (VInt 3)
    ∧ stored_recalculation_needed s' = Some false.
Proof.
  destruct (expire_after_writes_only_expiration Billing.settings Billing.clock
              (Billing.field true) PyNone (PyOffset Billing.hour)
              (Billing.loaded (VInt 3) false None) (fun _ => eq_refl))
    as (s' & Hrun & Hself & Hcached & Hflag & Htrace & Hdb & _).
  exists s'. unfold stored_cached, stored_recalculation_needed.
  rewrite Hself, Hdb. repeat split; try assumption; reflexivity.
Defined.

Lemma recalculate_zero_offset_takes_default_witness :
  ∃ s' kw,
    _recalculate_FIELD Billing.settings Billing.clock Billing.calculate
      (Billing.field true) (PyOffset 0) true
      (Billing.loaded VNone true None) = Return None s'
    ∧ FIELD_expires_after (self s') = Some (1000 + Billing.hour)
    ∧ kw_expires_after kw = Some (Some (1000 + Billing.hour))
    ∧ trace s' = [DbUpdate 7 flag_clear; CallCalculate; DbUpdate 7 kw]
    ∧ FIELD_expires_after (self s')
      ≠ to_absolute (PyOffset 0) (Billing.clock 0).
Proof.
  destruct (recalculate_zero_offset_takes_default
              (H := timedelta_offset) Billing.settings
              Billing.clock Billing.calculate (Billing.field true) 0
              (PyOffset Billing.hour) true (Billing.loaded VNone true None)
              (VInt 42) eq_refl eq_refl eq_refl eq_refl eq_refl)
    as (s' & kw & Hrun & _ & Hexp & Hkw & Htrace & Hne).
  exists s', kw. repeat split; try assumption.
  apply Hne. intros Heq. discriminate Heq.
Defined.

Lemma expire_after_zero_offset_takes_default_witness :
  ∃ s',
    _expire_FIELD_after Billing.settings Billing.clock (Billing.field true)
      (PyOffset 0) (Billing.loaded (VInt 3) false None) = Return tt s'
    ∧ FIELD_expires_after (self s') = Some (1000 + Billing.hour)
    ∧ trace s' = [DbUpdate 7 (only_expiration (Some (1000 + Billing.hour)))]
    ∧ stored_expires_after s' = Some (Some (1000 + Billing.hour))
    ∧ FIELD_expires_after (self s')
      ≠ to_absolute (PyOffset 0) (Billing.clock 0).
Proof.
  destruct (expire_after_zero_offset_takes_default
              (H := timedelta_offset) Billing.settings
              Billing.clock (Billing.field true) 0 (PyOffset Billing.hour)
              (Billing.loaded (VInt 3) false None) eq_refl eq_refl)
    as (s' & Hrun & _ & Hexp & Htrace & Hrow & Hne).
  exists s'. repeat split; try assumption.
  - exact (Hrow _ eq_refl).
  - apply Hne. intros Heq. discriminate Heq.
Defined.

Lemma read_unflagged_returns_cached_witness :
  ∃ s',
    _get_FIELD Billing.settings Billing.clock Billing.calculate (Billing.field true)
      (Billing.loaded VNone false (Some 5000)) = Return VNone s'
    ∧ self s' = self (Billing.loaded VNone false (Some 5000))
    ∧ db s' = db (Billing.loaded VNone false (Some 5000))
    ∧ trace s' = trace (Billing.loaded VNone false (Some 5000)).
Proof.
  apply (read_unflagged_returns_cached Billing.settings Billing.clock Billing.calculate
           (Billing.field true) (Billing.loaded VNone false (Some 5000))).
  - reflexivity.
  - intros _ t [= <-]. vm_compute. discriminate.
Defined.

(** ** Further behaviour of the engine *)

Section Behaviour.

Context {O : Type} `{RelativeOffset O}.
Variable settings : Settings O.
Variable clock : nat -> Z.
Variable calculate : Instance -> exn + pyval.

Ltac unfold_run :=
  unfold _get_FIELD, _recalculate_FIELD, _expire_FIELD_after,
    _flag_FIELD_as_stale, _set_FIELD, resolve_expiration,
    trigger_cache_recalculation, call_calculate, settings_getattr, now,
    db_update, db_select_recalculation_needed, getattr_cached,
    getattr_recalculation_needed, getattr_expires_after, setattr_cached,
    setattr_recalculation_needed, setattr_expires_after, bind, ret, raise,
    log, with_self in *.

(** Splits on whatever a run still branches on, innermost test first. *)
Ltac split_goal :=
  repeat match goal with
  | Heq : ?x = _ |- context [match ?x with _ => _ end] => rewrite Heq; cbn
  | |- context [match ?x with _ => _ end] =>
    lazymatch x with
    | context [match _ with _ => _ end] => fail
    | _ => destruct x eqn:?; cbn
    end
  end.

Ltac split_run Hrun :=
  repeat match type of Hrun with
  | context [match ?x with _ => _ end] =>
    lazymatch x with
    | context [match _ with _ => _ end] => fail
    | _ => destruct x eqn:?; cbn in Hrun
    end
  end.

(** Replays in the goal the tests a run in the context has settled. *)
Ltac replay :=
  cbn;
  repeat match goal with
  | Heq : ?x = _ |- context [match ?x with _ => _ end] => rewrite Heq; cbn
  end.

(** X1: a read that returns has left the flag attribute false, and what it
    returned is the cached attribute of the object as it now is; the key
    and the meta data of the object are as before. *)
Theorem read_returns_cached_and_unflagged
    (field : CachedField O) (s s' : State) (v : pyval) :
  _get_FIELD settings clock calculate field s = Return v s' →
  FIELD_recalculation_needed (self s') = false
  ∧ cached_FIELD (self s') = v
  ∧ pk (self s') = pk (self s)
  ∧ _meta (self s') = _meta (self s).
Proof.
  intros Hrun. unfold_run. cbn in Hrun. split_run Hrun;
    try discriminate Hrun; injection Hrun as <- <-; cbn; auto.
Qed.

(** X2: a read made right after a read that returned gives the same value
    and leaves the object, the table and the trace alone (no calculation,
    no update), provided that, on a field with temporal triggers, the
    expiration the object now has is not before the clock. *)
Theorem read_again_returns_same
    (field : CachedField O) (s s1 : State) (v : pyval) :
  _get_FIELD settings clock calculate field s = Return v s1 →
  (pytrig_bool (temporal_triggers field) = true →
   ∀ t, FIELD_expires_after (self s1) = Some t → clock (ticks s1) ≤ t) →
  ∃ s2,
    _get_FIELD settings clock calculate field s1 = Return v s2
    ∧ self s2 = self s1 ∧ db s2 = db s1 ∧ trace s2 = trace s1.
Proof.
  intros Hrun Hexp.
  assert (FIELD_recalculation_needed (self s1) = false ∧ cached_FIELD (self s1) = v)
    as [Hflag Hval].
  { clear Hexp. unfold_run. cbn in Hrun. split_run Hrun;
      try discriminate Hrun; injection Hrun as <- <-; cbn; auto. }
  clear Hrun. unfold_run. cbn. rewrite Hflag, Hval.
  destruct (pytrig_bool (temporal_triggers field)); cbn; [|eauto].
  destruct (FIELD_expires_after (self s1)) as [t|]; cbn; [|eauto].
  specialize (Hexp eq_refl t eq_refl).
  destruct (t <? clock (ticks s1)) eqn:E; [apply Z.ltb_lt in E; lia|].
  eauto.
Qed.

(** X3: flagging as stale an object that has no row raises [IndexError]
    at the query of line 25, whatever the arguments: the object and the
    table are untouched, no update is issued and no job is filed. *)
Theorem flag_as_stale_without_row_raises
    (field : CachedField O) (and_recalculate : option bool) (commit : bool)
    (s : State) :
  db s !! pk (self s) = None →
  ∃ s',
    _flag_FIELD_as_stale settings field and_recalculate commit s
      = Raise IndexError s'
    ∧ self s' = self s
    ∧ db s' = db s
    ∧ trace s' = trace s ++ [DbSelect (pk (self s))].
Proof.
  intros Hnone. unfold_run. cbn. rewrite Hnone. cbn. eauto.
Qed.

(** X8: [expire_FIELD_after] called with no expiration, or with one that is
    false in Python (a zero offset), under settings that do not define the
    default, raises [AttributeError] at line 48 and leaves everything as
    it was: nothing is assigned, nothing is written. *)
Theorem expire_after_without_default_raises
    (field : CachedField O) (expiration : pyexp O) (s : State) :
  pyexp_bool expiration = false →
  CACHED_FIELD_DEFAULT_EXPIRATION settings = None →
  _expire_FIELD_after settings clock field expiration s
  = Raise (AttributeError "CACHED_FIELD_DEFAULT_EXPIRATION") s.
Proof.
  intros Hfalse Hnone. unfold_run. cbn. rewrite Hfalse, Hnone. reflexivity.
Qed.

(** Every update goes to the row of the object's key. *)
Lemma alter_other_row (f : Row → Row) (m : gmap Z Row) (k j : Z) :
  j ≠ k → alter f k m !! j = m !! j.
Proof. intros Hne. by rewrite lookup_alter_ne. Qed.

Ltac frame_solved :=
  cbn; repeat split; try reflexivity;
  intros; rewrite ?alter_other_row by assumption; reflexivity.

(** X12: whatever they are given and however they end, the four
    operations keep the key and the meta data of the object and change no
    row but the one of that key. *)
Theorem operations_touch_only_own_row
    (field : CachedField O) (expiration : pyexp O)
    (and_recalculate : option bool) (commit : bool) (s : State) :
  let unchanged (s' : State) :=
    pk (self s') = pk (self s)
    ∧ _meta (self s') = _meta (self s)
    ∧ ∀ k, k ≠ pk (self s) → db s' !! k = db s !! k in
  unchanged (final_state (_get_FIELD settings clock calculate field s))
  ∧ unchanged (final_state (_recalculate_FIELD settings clock calculate field
                              expiration commit s))
  ∧ unchanged (final_state (_expire_FIELD_after settings clock field
                              expiration s))
  ∧ unchanged (final_state (_flag_FIELD_as_stale settings field
                              and_recalculate commit s)).
Proof.
  cbn. repeat apply conj; unfold_run; cbn; split_goal; frame_solved.
Qed.

(** X14: on a field without temporal triggers, reading and recalculating
    consult neither the settings nor the clock: the run is the same under
    any other settings and clock, whatever expiration is passed, and it
    leaves the clock unread and the expiration of the object and of its
    row as they were. *)
Theorem no_temporal_triggers_no_clock_no_settings
    (field : CachedField O) (expiration expiration' : pyexp O)
    (commit : bool) (settings' : Settings O) (clock' : nat → Z) (s : State) :
  pytrig_bool (temporal_triggers field) = false →
  _get_FIELD settings clock calculate field s
  = _get_FIELD settings' clock' calculate field s
  ∧ _recalculate_FIELD settings clock calculate field expiration commit s
    = _recalculate_FIELD settings' clock' calculate field expiration' commit s
  ∧ (let s' := final_state (_get_FIELD settings clock calculate field s) in
     ticks s' = ticks s
     ∧ FIELD_expires_after (self s') = FIELD_expires_after (self s)
     ∧ stored_expires_after s' = stored_expires_after s)
  ∧ (let s' := final_state (_recalculate_FIELD settings clock calculate field
                              expiration commit s) in
     ticks s' = ticks s
     ∧ FIELD_expires_after (self s') = FIELD_expires_after (self s)
     ∧ stored_expires_after s' = stored_expires_after s).
Proof.
  intros Htrig. unfold stored_expires_after. unfold_run. cbn.
  rewrite Htrig. cbn.
  repeat apply conj; try reflexivity; split_goal;
    rewrite ?lookup_alter_eq; cbn;
    try reflexivity; destruct (db s !! pk (self s)) as [[]|]; reflexivity.
Qed.

(** X4: flagging as stale without committing issues no update and files
    no job; it returns the change set, and the caller who then passes it
    to [update] gets the object and the table a committed call gives. *)
Theorem flag_as_stale_uncommitted_defers_update
    (field : CachedField O) (a a' : option bool) (s : State) (row : Row) :
  db s !! pk (self s) = Some row →
  ∃ kw s1,
    _flag_FIELD_as_stale settings field a false s = Return kw s1
    ∧ db s1 = db s
    ∧ trace s1 = trace s ++ [DbSelect (pk (self s))]
    ∧ self (final_state (db_update kw s1))
      = self (final_state (_flag_FIELD_as_stale settings field a' true s))
    ∧ db (final_state (db_update kw s1))
      = db (final_state (_flag_FIELD_as_stale settings field a' true s)).
Proof.
  intros Hrow. unfold_run. cbn. rewrite Hrow. cbn.
  destruct (r_recalculation_needed row); cbn;
    (eexists _, _; split; [reflexivity|]); cbn;
    repeat split; split_goal; reflexivity.
Qed.

(** The final update of a committed recalculation, made after the flag
    clear, leaves a row as one update with the flag entry does. *)
Lemma update_after_flag_clear
    (m : gmap Z Row) (k : Z) (c : option pyval) (e : option (option Z)) :
  alter (apply_kwargs {| kw_cached := c; kw_recalculation_needed := None;
                         kw_expires_after := e |}) k
    (alter (apply_kwargs flag_clear) k m)
  = alter (apply_kwargs {| kw_cached := c;
                           kw_recalculation_needed := Some false;
                           kw_expires_after := e |}) k m.
Proof.
  rewrite alter_alter_eq. apply alter_ext. intros [] _. reflexivity.
Qed.

(** X5: when an uncommitted recalculation returns a change set, the
    committed recalculation from the same state returns too, with the same
    object, and its table is the one the caller gets by passing the change
    set to [update]: two updates or one, the row ends the same. *)
Theorem recalculate_uncommitted_then_update
    (field : CachedField O) (expiration : pyexp O) (s s1 : State)
    (kw : Kwargs) :
  _recalculate_FIELD settings clock calculate field expiration false s
    = Return (Some kw) s1 →
  ∃ s2,
    _recalculate_FIELD settings clock calculate field expiration true s
      = Return None s2
    ∧ self s2 = self s1
    ∧ ticks s2 = ticks s1
    ∧ db s2 = db (final_state (db_update kw s1)).
Proof.
  intros Hrun. unfold_run. cbn in *. split_run Hrun;
    try discriminate; injection Hrun as <- <-; replay;
    (eexists; split; [reflexivity|]); cbn; repeat split;
    apply update_after_flag_clear.
Qed.

Lemma empty_update_keeps_table (m : gmap Z Row) (k : Z) :
  alter (apply_kwargs kw_empty) k m = m.
Proof. apply alter_id. intros [] _. reflexivity. Qed.

Ltac unfold_stored' :=
  unfold stored_recalculation_needed, stored_cached, stored_expires_after in *.

(** Closes what is left once a run has been evaluated. *)
Ltac settle :=
  repeat match goal with
  | |- _ ∧ _ => split
  | |- ∃ _, _ => eexists
  end;
  first
    [ reflexivity
    | intros; cbn; unfold_stored'; cbn;
      rewrite <- ?app_assoc, ?lookup_alter_eq; cbn;
      try match goal with
      | Hrow : _ !! _ = Some _ |- _ => rewrite ?Hrow
      end;
      try reflexivity ].

(** X6: a committed flagging as stale followed by a read of the same
    object, when the object agreed with its row on the flag: the read
    recalculates, once, returns the fresh value and leaves the flag false
    on the object and in the row, with the fresh value stored.  The celery
    arguments are a dict, and the settings define the default expiration
    when the field has temporal triggers. *)
Theorem flag_as_stale_then_read_recalculates
    (field : CachedField O) (a : option bool) (s : State) (row : Row)
    (V : pyval) :
  db s !! pk (self s) = Some row →
  FIELD_recalculation_needed (self s) = r_recalculation_needed row →
  is_Some (celery_async_kwargs field) →
  (pytrig_bool (temporal_triggers field) = true →
   is_Some (CACHED_FIELD_DEFAULT_EXPIRATION settings)) →
  calculate
    (self (final_state (_flag_FIELD_as_stale settings field a true s)))
    = inr V →
  ∃ s' evs,
    (_flag_FIELD_as_stale settings field a true;;
     _get_FIELD settings clock calculate field) s = Return V s'
    ∧ FIELD_recalculation_needed (self s') = false
    ∧ stored_recalculation_needed s' = Some false
    ∧ stored_cached s' = Some V
    ∧ trace s' = trace s ++ evs
    ∧ calculate_calls evs = 1%nat
    ∧ trigger_calls evs
      = (if resolve_and_recalculate settings a then 1 else 0)%nat.
Proof.
  intros Hrow Hagree [kw Hkw] Hcfg Hcalc. unfold_run. cbn in *.
  rewrite Hrow in *. cbn in *. rewrite Hkw in *.
  destruct (r_recalculation_needed row) eqn:Hr; cbn in *;
    destruct (resolve_and_recalculate settings a); cbn in *;
    rewrite ?Hagree; cbn;
    (destruct (pytrig_bool (temporal_triggers field)); cbn;
       [destruct (Hcfg eq_refl) as [d Hd]|]);
    rewrite Hcalc; cbn; rewrite ?Hd; cbn; split_goal; settle.
Qed.

(** X7: flagging as stale does not touch the flag attribute when the row
    is already flagged.  So on an object whose attribute is false while
    its row is flagged, a read made right after the flagging still returns
    the cached attribute without calculating (the expiration, under
    temporal triggers, not being before the clock). *)
Theorem flag_as_stale_skips_object_when_row_flagged
    (field : CachedField O) (a : option bool) (commit : bool) (s : State)
    (row : Row) :
  db s !! pk (self s) = Some row →
  r_recalculation_needed row = true →
  FIELD_recalculation_needed (self s) = false →
  is_Some (celery_async_kwargs field) →
  (pytrig_bool (temporal_triggers field) = true →
   ∀ t, FIELD_expires_after (self s) = Some t → clock (ticks s) ≤ t) →
  ∃ s' evs,
    (_flag_FIELD_as_stale settings field a commit;;
     _get_FIELD settings clock calculate field) s
      = Return (cached_FIELD (self s)) s'
    ∧ FIELD_recalculation_needed (self s') = false
    ∧ stored_recalculation_needed s' = Some true
    ∧ trace s' = trace s ++ evs
    ∧ calculate_calls evs = 0%nat.
Proof.
  intros Hrow Hr Hflag [kw Hkw] Hexp. unfold_run. cbn.
  rewrite Hrow. cbn. rewrite Hr, Hkw. cbn.
  assert (∀ t, FIELD_expires_after (self s) = Some t →
               pytrig_bool (temporal_triggers field) = true →
               (t <? clock (ticks s)) = false) as Hnot.
  { intros t Ht Htrig. apply Z.ltb_ge. by apply Hexp. }
  destruct commit, (resolve_and_recalculate settings a); cbn;
    rewrite Hflag; cbn;
    (destruct (pytrig_bool (temporal_triggers field)); cbn;
       [destruct (FIELD_expires_after (self s)) as [t|]; cbn;
          [rewrite (Hnot t eq_refl eq_refl); cbn|]|]);
    rewrite ?empty_update_keeps_table; settle; rewrite ?empty_update_keeps_table, ?Hrow;
    cbn; rewrite ?Hr; try reflexivity; assumption.
Qed.

(** X9: on a field with temporal triggers, [expire_FIELD_after] with a
    datetime before the clock makes the next read of the object
    recalculate, whatever its flag: the read calls the calculation method
    once, returns the fresh value and stores it with the flag false.  The
    settings define the default expiration the recalculation reads. *)
Theorem expire_in_the_past_then_read_recalculates
    (field : CachedField O) (s : State) (t : Z) (row : Row) (V : pyval) :
  pytrig_bool (temporal_triggers field) = true →
  t < clock (ticks s) →
  db s !! pk (self s) = Some row →
  is_Some (CACHED_FIELD_DEFAULT_EXPIRATION settings) →
  calculate (set_expires_after (Some t) (self s)) = inr V →
  ∃ s' evs,
    (_expire_FIELD_after settings clock field (PyDatetime t);;
     _get_FIELD settings clock calculate field) s = Return V s'
    ∧ cached_FIELD (self s') = V
    ∧ FIELD_recalculation_needed (self s') = false
    ∧ stored_cached s' = Some V
    ∧ stored_recalculation_needed s' = Some false
    ∧ trace s' = trace s ++ evs
    ∧ calculate_calls evs = 1%nat.
Proof.
  intros Htrig Hlt Hrow [d Hd] Hcalc. apply Z.ltb_lt in Hlt.
  unfold_run. cbn. rewrite Htrig. cbn.
  destruct (FIELD_recalculation_needed (self s)); cbn;
    rewrite ?Hlt; cbn; rewrite Hcalc; cbn; rewrite ?Htrig; cbn;
    split_goal; settle.
Qed.

(** X10: a read whose calculation raises lets the exception through with
    the object as it was, but the row has lost its flag and kept its old
    value.  Reading the same object again calls the calculation method
    again; reading the object loaded anew from the row returns the old
    stored value without calculating (its expiration, under temporal
    triggers, not being before the clock). *)
Theorem failed_read_leaves_row_unflagged
    (field : CachedField O) (s : State) (e : exn) (row : Row) :
  FIELD_recalculation_needed (self s) = true →
  calculate (self s) = inl e →
  db s !! pk (self s) = Some row →
  ∃ s1,
    _get_FIELD settings clock calculate field s = Raise e s1
    ∧ self s1 = self s
    ∧ stored_recalculation_needed s1 = Some false
    ∧ stored_cached s1 = Some (r_cached row)
    ∧ (∃ s2 evs,
         _get_FIELD settings clock calculate field s1 = Raise e s2
         ∧ trace s2 = trace s1 ++ evs
         ∧ calculate_calls evs = 1%nat)
    ∧ ((pytrig_bool (temporal_triggers field) = true →
        ∀ t, r_expires_after row = Some t → clock (ticks s1) ≤ t) →
       ∃ s3,
         _get_FIELD settings clock calculate field (reloaded s1)
           = Return (r_cached row) s3
         ∧ db s3 = db s1
         ∧ trace s3 = trace s1).
Proof.
  intros Hflag Hcalc Hrow. unfold reloaded. unfold_run. cbn.
  rewrite Hflag. cbn.
  assert (∀ t, r_expires_after row = Some t →
               (pytrig_bool (temporal_triggers field) = true →
                ∀ t, r_expires_after row = Some t → clock (ticks s) ≤ t) →
               pytrig_bool (temporal_triggers field) = true →
               (t <? clock (ticks s)) = false) as Hnot.
  { intros t Ht Hexp Htrig. apply Z.ltb_ge. by apply Hexp. }
  destruct (pytrig_bool (temporal_triggers field)) eqn:Htrig; cbn;
    repeat (progress (rewrite ?Hflag, ?Hcalc, ?lookup_alter_eq, ?Hrow; cbn));
    (eexists; split; [reflexivity|]); unfold_stored'; cbn;
    repeat (progress (rewrite ?Hflag, ?Hcalc, ?lookup_alter_eq, ?Hrow; cbn));
    (split; [reflexivity|]); (split; [reflexivity|]);
    (split; [reflexivity|]); (split; [settle|]); intros Hexp;
    try (destruct (r_expires_after row) as [t|] eqn:Ht; cbn;
         [rewrite (Hnot t eq_refl Hexp eq_refl); cbn|]);
    settle.
Qed.

(** X11: assigning through the property only sets the cached attribute.
    On an object that is not flagged (nor, under temporal triggers,
    expired) the next read returns the assigned value, and nothing has
    been written to the table. *)
Theorem set_then_read_returns_assigned
    (field : CachedField O) (s : State) (v : pyval) :
  FIELD_recalculation_needed (self s) = false →
  (pytrig_bool (temporal_triggers field) = true →
   ∀ t, FIELD_expires_after (self s) = Some t → clock (ticks s) ≤ t) →
  ∃ s',
    (_set_FIELD field v;; _get_FIELD settings clock calculate field) s
      = Return v s'
    ∧ self s' = set_cached v (self s)
    ∧ db s' = db s
    ∧ trace s' = trace s.
Proof.
  intros Hflag Hexp. unfold_run. cbn. rewrite Hflag.
  destruct (pytrig_bool (temporal_triggers field)); cbn; [|settle].
  destruct (FIELD_expires_after (self s)) as [t|]; cbn; [|settle].
  specialize (Hexp eq_refl t eq_refl).
  destruct (t <? clock (ticks s)) eqn:E; [apply Z.ltb_lt in E; lia|].
  settle.
Qed.

(** X23: on a flagged object the assignment does not last: the next read
    recalculates and returns, caches and stores what the calculation
    method gives, not what was assigned. *)
Theorem set_on_flagged_object_is_overwritten
    (field : CachedField O) (s : State) (v V : pyval) (row : Row) :
  FIELD_recalculation_needed (self s) = true →
  db s !! pk (self s) = Some row →
  (pytrig_bool (temporal_triggers field) = true →
   is_Some (CACHED_FIELD_DEFAULT_EXPIRATION settings)) →
  calculate (set_cached v (self s)) = inr V →
  ∃ s',
    (_set_FIELD field v;; _get_FIELD settings clock calculate field) s
      = Return V s'
    ∧ cached_FIELD (self s') = V
    ∧ stored_cached s' = Some V.
Proof.
  intros Hflag Hrow Hcfg Hcalc. unfold_run. cbn. rewrite Hflag. cbn.
  destruct (pytrig_bool (temporal_triggers field)); cbn;
    [destruct (Hcfg eq_refl) as [d Hd]|];
    rewrite Hcalc; cbn; rewrite ?Hd; cbn; split_goal; settle.
Qed.

(** X15: on a field whose celery arguments are [None], a committed
    flagging as stale with [and_recalculate] resolved to true raises
    [TypeError] when it comes to filing the job: the flag is already
    written to the row, no job is filed and the change set is not
    returned. *)
Theorem flag_as_stale_without_celery_kwargs_raises
    (field : CachedField O) (a : option bool) (s : State) (row : Row) :
  db s !! pk (self s) = Some row →
  celery_async_kwargs field = None →
  resolve_and_recalculate settings a = true →
  ∃ s' evs,
    _flag_FIELD_as_stale settings field a true s = Raise TypeError s'
    ∧ stored_recalculation_needed s' = Some true
    ∧ trace s' = trace s ++ evs
    ∧ updates evs
      = [if r_recalculation_needed row then kw_empty else flag_raise]
    ∧ delayed evs = [].
Proof.
  intros Hrow Hnone Hgo. unfold flag_raise. unfold_run. cbn.
  rewrite Hrow, Hgo, Hnone. cbn.
  destruct (r_recalculation_needed row) eqn:Hr; cbn;
    rewrite ?empty_update_keeps_table; settle;
    rewrite ?empty_update_keeps_table, ?Hrow; cbn; rewrite ?Hr; reflexivity.
Qed.

(** X13: an object that holds what its row holds still does after a read,
    a committed recalculation, [expire_FIELD_after] or a committed
    flagging as stale that returns: whatever these assign to the object
    they write to the row, and the other way round. *)
Theorem committed_operations_keep_object_in_sync
    (field : CachedField O) (expiration : pyexp O) (a : option bool)
    (s : State) :
  in_sync s →
  (∀ v s', _get_FIELD settings clock calculate field s = Return v s' →
           in_sync s')
  ∧ (∀ r s',
       _recalculate_FIELD settings clock calculate field expiration true s
         = Return r s' → in_sync s')
  ∧ (∀ s', _expire_FIELD_after settings clock field expiration s
             = Return tt s' → in_sync s')
  ∧ (∀ kw s', _flag_FIELD_as_stale settings field a true s = Return kw s' →
              in_sync s').
Proof.
  intros (row & Hrow & Hc & Hf & He).
  assert (∀ n, in_sync {| self := self s; db := db s; trace := trace s;
                          ticks := n |}) as Hsame.
  { intros n. exists row. cbn. unfold mirrors. auto. }
  repeat apply conj; intros until s'; intros Hrun;
    unfold_run; cbn in Hrun; rewrite ?Hrow in Hrun; cbn in Hrun;
    split_run Hrun; try discriminate Hrun;
    injection Hrun as <-; subst;
    try apply Hsame; try (destruct s; exists row; unfold mirrors; by auto);
    unfold in_sync, mirrors; cbn;
    rewrite ?lookup_alter_eq, Hrow; cbn;
    (eexists; split; [reflexivity|]); cbn; repeat split; auto; congruence.
Qed.

Lemma update_without_row (f : Row → Row) (m : gmap Z Row) (k : Z) :
  m !! k = None → alter f k m = m.
Proof.
  intros Hk. apply map_eq. intros j. destruct (decide (j = k)) as [->|Hne].
  - by rewrite lookup_alter_eq, Hk.
  - by rewrite lookup_alter_ne.
Qed.

(** X26: on an object that has no row, reading, recalculating and
    [expire_FIELD_after] leave the table as it is, however they end: their
    updates match no row.  A committed recalculation whose calculation
    returns still returns normally, with the fresh value cached on the
    object and the flag attribute false, after two updates that stored
    nothing. *)
Theorem operations_without_row_store_nothing
    (field : CachedField O) (expiration : pyexp O) (commit : bool)
    (s : State) :
  db s !! pk (self s) = None →
  db (final_state (_get_FIELD settings clock calculate field s)) = db s
  ∧ db (final_state (_recalculate_FIELD settings clock calculate field
                       expiration commit s)) = db s
  ∧ db (final_state (_expire_FIELD_after settings clock field expiration s))
    = db s
  ∧ (∀ V, calculate (self s) = inr V →
          (pytrig_bool (temporal_triggers field) = true →
           is_Some (CACHED_FIELD_DEFAULT_EXPIRATION settings)) →
          ∃ s' evs,
            _recalculate_FIELD settings clock calculate field expiration
              true s = Return None s'
            ∧ cached_FIELD (self s') = V
            ∧ FIELD_recalculation_needed (self s') = false
            ∧ stored_cached s' = None
            ∧ trace s' = trace s ++ evs
            ∧ length (updates evs) = 2%nat).
Proof.
  intros Hrow. repeat apply conj.
  - unfold_run. cbn. split_goal;
      rewrite ?(update_without_row _ (db s)) by assumption; reflexivity.
  - unfold_run. cbn. split_goal;
      rewrite ?(update_without_row _ (db s)) by assumption; reflexivity.
  - unfold_run. cbn. split_goal;
      rewrite ?(update_without_row _ (db s)) by assumption; reflexivity.
  - intros V Hcalc Hcfg. unfold_run. cbn. rewrite Hcalc. cbn.
    destruct (pytrig_bool (temporal_triggers field)); cbn;
      [destruct (Hcfg eq_refl) as [d Hd]|];
      rewrite ?Hd; cbn; split_goal;
      (do 2 eexists; repeat apply conj; try reflexivity;
       cbn; unfold_stored'; cbn;
       rewrite ?(update_without_row _ (db s)) by assumption;
       rewrite <- ?app_assoc, ?Hrow; reflexivity).
Qed.

End Behaviour.

(** ** Construction, names and binding *)

Section Binding.

Context {O : Type} `{RelativeOffset O}.
Variable settings : Settings O.

(** X16: a field constructed with temporal triggers asked for and a
    non-empty dict of celery arguments reads no setting: construction
    succeeds, with the same field, under any settings, also those that
    define none of the names. *)
Theorem init_explicit_arguments_need_no_settings
    (settings' : Settings O)
    (calculation_method_name cached_field_name
       recalculation_needed_field_name : option string)
    (index_temporal index_flag : bool)
    (expiration_field_name : option string) (k : pykwargs) :
  pykwargs_bool k = true →
  ∃ field,
    CachedFieldMixin__init__ settings calculation_method_name
      cached_field_name recalculation_needed_field_name true
      index_temporal index_flag expiration_field_name k = inr field
    ∧ CachedFieldMixin__init__ settings' calculation_method_name
        cached_field_name recalculation_needed_field_name true
        index_temporal index_flag expiration_field_name k = inr field
    ∧ temporal_triggers field = TrigBool true
    ∧ celery_async_kwargs field = k.
Proof.
  intros Hk. unfold CachedFieldMixin__init__. rewrite Hk.
  eexists. repeat split.
Qed.

(** X17: an empty dict of celery arguments is false in Python, so it is
    treated as no argument, whatever the other arguments are: construction
    gives what it gives with [None].  Where line 158 lets it through
    (temporal triggers asked for, or the default expiration defined),
    construction takes the celery setting when the settings define it and
    raises [AttributeError] for that name when they do not, although a
    dict was passed; where line 158 raises, it has raised for the default
    expiration before the dict is looked at. *)
Theorem init_empty_celery_kwargs_fall_back
    (calculation_method_name cached_field_name
       recalculation_needed_field_name : option string)
    (temporal index_temporal index_flag : bool)
    (expiration_field_name : option string) :
  let init k :=
    CachedFieldMixin__init__ settings calculation_method_name
      cached_field_name recalculation_needed_field_name temporal
      index_temporal index_flag expiration_field_name k in
  let passes_line_158 :=
    temporal || bool_decide (is_Some (CACHED_FIELD_DEFAULT_EXPIRATION settings)) in
  init (Some []) = init None
  ∧ (passes_line_158 = false →
     init (Some []) = inl (AttributeError "CACHED_FIELD_DEFAULT_EXPIRATION"))
  ∧ (passes_line_158 = true →
     CACHED_FIELD_CELERY_ASYNC_KWARGS settings = None →
     init (Some []) = inl (AttributeError "CACHED_FIELD_CELERY_ASYNC_KWARGS"))
  ∧ (∀ k, passes_line_158 = true →
          CACHED_FIELD_CELERY_ASYNC_KWARGS settings = Some k →
          ∃ field, init (Some []) = inr field
                   ∧ celery_async_kwargs field = k).
Proof.
  intros init passes. subst init passes. unfold CachedFieldMixin__init__.
  cbn [pykwargs_bool].
  destruct temporal; cbn [orb];
    destruct (CACHED_FIELD_DEFAULT_EXPIRATION settings) as [e|];
    repeat apply conj; try reflexivity; try discriminate;
    try (intros _ ->; reflexivity);
    try (intros k _ ->; eexists; split; reflexivity).
Qed.

(** X18: the names a constructed field answers to are the name arguments
    that were non-empty strings, and the derived names otherwise: an
    empty string is no override. *)
Theorem constructed_field_names
    (calculation_method_name_arg cached_field_name_arg
       recalculation_needed_field_name_arg : option string)
    (temporal index_temporal index_flag : bool)
    (expiration_field_name_arg : option string) (k : pykwargs)
    (config : CachedField O) (c : CachedClass) (args : list pyval)
    (kwargs : kwdict) (name : string) :
  CachedFieldMixin__init__ settings calculation_method_name_arg
    cached_field_name_arg recalculation_needed_field_name_arg temporal
    index_temporal index_flag expiration_field_name_arg k = inr config →
  let self := {| bf_class := c; bf_config := config;
                 init_args_for_field := args;
                 init_kwargs_for_field := kwargs; bf_name := name |} in
  cached_field_name self
    = chosen_name cached_field_name_arg ("cached_" +:+ name)
  ∧ recalculation_needed_field_name self
    = chosen_name recalculation_needed_field_name_arg
        (name +:+ "_recalculation_needed")
  ∧ calculation_method_name self
    = chosen_name calculation_method_name_arg ("calculate_" +:+ name)
  ∧ expiration_field_name self
    = chosen_name expiration_field_name_arg (name +:+ "_expires_after").
Proof.
  unfold CachedFieldMixin__init__. intros Hinit.
  repeat match type of Hinit with
  | context [match ?x with _ => _ end] => destruct x; try discriminate Hinit
  end;
  injection Hinit as <-;
  unfold cached_field_name, recalculation_needed_field_name,
    calculation_method_name, expiration_field_name, chosen_name, given_name;
  cbn;
  destruct cached_field_name_arg as [[]|],
    recalculation_needed_field_name_arg as [[]|],
    calculation_method_name_arg as [[]|],
    expiration_field_name_arg as [[]|];
  repeat split.
Qed.

Lemma length_append (a b : string) :
  String.length (a +:+ b) = (String.length a + String.length b)%nat.
Proof.
  induction a as [|c a IH]; [reflexivity|].
  change (S (String.length (a +:+ b))
          = S (String.length a + String.length b)).
  by f_equal.
Qed.

Lemma append_assoc (a b c : string) : (a +:+ b) +:+ c = a +:+ (b +:+ c).
Proof.
  induction a as [|x a IH]; [reflexivity|].
  change (String x ((a +:+ b) +:+ c) = String x (a +:+ (b +:+ c))).
  by f_equal.
Qed.

(** Two strings that end in suffixes of one length end in the same one. *)
Lemma append_same_suffix (a c b d : string) :
  String.length b = String.length d → a +:+ b = c +:+ d → b = d.
Proof.
  intros Hlen. revert c.
  induction a as [|x a IH]; intros [|y c] Heq.
  - assumption.
  - apply (f_equal String.length) in Heq.
    change (String.length b = S (String.length (c +:+ d))) in Heq.
    rewrite length_append in Heq. lia.
  - apply (f_equal String.length) in Heq.
    change (S (String.length (a +:+ b)) = String.length d) in Heq.
    rewrite length_append in Heq. lia.
  - change (String x (a +:+ b) = String y (c +:+ d)) in Heq.
    injection Heq as _ Heq. by apply (IH c).
Qed.

Ltac differ_by_length :=
  let Heq := fresh in
  intros Heq; apply (f_equal String.length) in Heq;
  simpl in Heq; rewrite ?length_append in Heq; simpl in Heq; lia.

(** X19: the seven names the binding sets on the class for a field that
    overrides none, and the name of its calculation method, are pairwise
    different, whatever the field is called. *)
Theorem default_names_distinct (name : string) : NoDup (default_names name).
Proof.
  assert (name +:+ "_expires_after" ≠ "flag_" +:+ name +:+ "_as_stale") as Hsuffix.
  { intros Heq.
    change (name +:+ "_expires_after")
      with (name +:+ ("_expi" +:+ "res_after")) in Heq.
    rewrite <- !append_assoc in Heq.
    apply append_same_suffix in Heq; [discriminate Heq|reflexivity]. }
  unfold default_names.
  repeat (apply NoDup_cons; split;
          [rewrite ?not_elem_of_cons; repeat split;
           try apply not_elem_of_nil; try differ_by_length; try exact Hsuffix|]).
  apply NoDup_nil. constructor.
Qed.

(** What the loop of lines 114-118 leaves under a name: what the class
    had, else the first listed function of that name. *)
Lemma ensure_loop_lookup (l : list Func) (cls : Class O) (n : string) :
  attrs (fold_left
           (λ cls func,
              match attrs cls !! func_name func with
              | Some _ => cls
              | None => class_setattr cls (func_name func) (AFunction func)
              end) l cls) !! n
  = match attrs cls !! n with
    | Some v => Some v
    | None => AFunction <$> find (λ f, String.eqb (func_name f) n) l
    end.
Proof.
  revert cls. induction l as [|f l IH]; intros cls; simpl.
  - by destruct (attrs cls !! n).
  - rewrite IH. destruct (String.eqb (func_name f) n) eqn:E.
    + apply String.eqb_eq in E. subst n.
      destruct (attrs cls !! func_name f) eqn:Hf; simpl.
      * by rewrite Hf.
      * by rewrite lookup_insert_eq.
    + apply String.eqb_neq in E.
      destruct (attrs cls !! func_name f) eqn:Hf; simpl; [done|].
      by rewrite lookup_insert_ne.
Qed.

Lemma ensure_loop_contributed (l : list Func) (cls : Class O) :
  contributed (fold_left
                 (λ cls func,
                    match attrs cls !! func_name func with
                    | Some _ => cls
                    | None =>
                      class_setattr cls (func_name func) (AFunction func)
                    end) l cls)
  = contributed cls.
Proof.
  revert cls. induction l as [|f l IH]; intros cls; simpl; [done|].
  rewrite IH. by destruct (attrs cls !! func_name f).
Qed.

Lemma ensure_lookup_method (cls : Class O) (f : Func) :
  attrs (ensure_class_has_cached_field_methods cls) !! func_name f
  = Some (method_of cls f).
Proof.
  unfold ensure_class_has_cached_field_methods, method_of.
  rewrite ensure_loop_lookup.
  destruct (attrs cls !! func_name f); [done|]. by destruct f.
Qed.

Lemma find_none_everywhere {A} (p : A → bool) (l : list A) :
  (∀ x, p x = false) → find p l = None.
Proof.
  intros Hp. induction l as [|x l IH]; simpl; [done|]. by rewrite Hp.
Qed.

Lemma ensure_lookup_other (cls : Class O) (n : string) :
  (∀ f, n ≠ func_name f) →
  attrs (ensure_class_has_cached_field_methods cls) !! n = attrs cls !! n.
Proof.
  intros Hn. unfold ensure_class_has_cached_field_methods.
  rewrite ensure_loop_lookup. destruct (attrs cls !! n); [done|].
  rewrite find_none_everywhere; [done|].
  intros f. apply String.eqb_neq. intros E. by apply (Hn f).
Qed.

(** X20: [ensure_class_has_cached_field_methods] replaces nothing the
    class already has, one of the six names included; afterwards each of
    the six names is there, holding the class's own attribute or else the
    module's function; no other name is touched; and running it again
    changes nothing. *)
Theorem ensure_keeps_and_completes (cls : Class O) :
  let cls' := ensure_class_has_cached_field_methods cls in
  (∀ n v, attrs cls !! n = Some v → attrs cls' !! n = Some v)
  ∧ (∀ f, attrs cls' !! func_name f = Some (method_of cls f))
  ∧ (∀ n, (∀ f, n ≠ func_name f) → attrs cls' !! n = attrs cls !! n)
  ∧ contributed cls' = contributed cls
  ∧ ensure_class_has_cached_field_methods cls' = cls'.
Proof.
  intros cls'. repeat split.
  - intros n v Hn. unfold cls', ensure_class_has_cached_field_methods.
    by rewrite ensure_loop_lookup, Hn.
  - apply ensure_lookup_method.
  - apply ensure_lookup_other.
  - apply ensure_loop_contributed.
  - assert (attrs (ensure_class_has_cached_field_methods cls') = attrs cls')
      as Hattrs.
    { apply map_eq. intros n.
      unfold ensure_class_has_cached_field_methods at 1.
      rewrite ensure_loop_lookup.
      destruct (attrs cls' !! n) eqn:Hn; [done|].
      destruct (find _ _) as [f|] eqn:Hfind; [|done].
      apply find_some in Hfind as [_ E]. apply String.eqb_eq in E. subst n.
      unfold cls' in Hn. by rewrite ensure_lookup_method in Hn. }
    assert (contributed (ensure_class_has_cached_field_methods cls')
            = contributed cls') as Hcontr
      by apply ensure_loop_contributed.
    destruct (ensure_class_has_cached_field_methods cls'), cls'.
    simpl in *. by subst.
Qed.

(** Turns the distinctness of listed names into the inequalities between
    them. *)
Ltac names_apart :=
  repeat match goal with
  | Hd : NoDup (_ :: _) |- _ =>
    let Hn := fresh "Hnotin" in apply NoDup_cons in Hd as [Hn Hd]
  | Hn : _ ∉ _ :: _ |- _ =>
    let Hne := fresh "Hne" in apply not_elem_of_cons in Hn as [Hne Hn]
  end.

Ltac look :=
  repeat first
    [ rewrite lookup_insert_eq
    | rewrite lookup_insert_ne
        by (first [assumption | apply not_eq_sym; assumption]) ];
  try reflexivity.

Ltac not_a_function :=
  match goal with
  | Hk : ∀ f, ?n ≠ func_name f |- ?n ≠ func_name _ => apply Hk
  end.

(** X21: binding a field to a class, when the seven names it sets are
    pairwise different and none is the name of one of the six functions,
    succeeds and leaves under each name what was set for it: the curried
    recalculation and flagging methods, the property over the curried
    getter and setter, the wrapped model field built from the kept
    arguments, the flag field with its index hint and, only on a field
    with temporal triggers, the curried expiry method and the expiration
    field.  The curried functions are the class's own when it had
    attributes of those names.  The model fields are handed to the class
    in the order cached value, flag, expiration. *)
Theorem contribute_to_class_installs
    (c : CachedClass) (config : CachedField O) (args : list pyval)
    (kwargs : kwdict) (cls : Class O) (name : string) :
  let self := {| bf_class := c; bf_config := config;
                 init_args_for_field := args;
                 init_kwargs_for_field := kwargs; bf_name := name |} in
  let temporal := pytrig_bool (temporal_triggers config) in
  let proper := ProperField (proper_field_class c) args kwargs in
  let flag := FlagField (db_index_on_recalculation_needed_field config) in
  let expire := ExpireField (db_index_on_temporal_trigger_field config) in
  NoDup (installed_names self) →
  (∀ f, func_name f ∉ installed_names self) →
  ∃ cls',
    contribute_to_class c config args kwargs cls name = inr (self, cls')
    ∧ attrs cls' !! ("recalculate_" +:+ name)
      = Some (ACurry (method_of cls F_recalculate_FIELD) self)
    ∧ attrs cls' !! name
      = Some (AProperty (ACurry (method_of cls F_get_FIELD) self)
                        (ACurry (method_of cls F_set_FIELD) self))
    ∧ attrs cls' !! cached_field_name self = Some (AField proper)
    ∧ attrs cls' !! recalculation_needed_field_name self = Some (AField flag)
    ∧ attrs cls' !! ("flag_" +:+ name +:+ "_as_stale")
      = Some (ACurry (method_of cls F_flag_FIELD_as_stale) self)
    ∧ attrs cls' !! ("expire_" +:+ name +:+ "_after")
      = (if temporal
         then Some (ACurry (method_of cls F_expire_FIELD_after) self)
         else attrs cls !! ("expire_" +:+ name +:+ "_after"))
    ∧ attrs cls' !! expiration_field_name self
      = (if temporal then Some (AField expire)
         else attrs cls !! expiration_field_name self)
    ∧ (∀ f, attrs cls' !! func_name f = Some (method_of cls f))
    ∧ contributed cls'
      = contributed cls
        ++ [(cached_field_name self, proper);
            (recalculation_needed_field_name self, flag)]
        ++ (if temporal then [(expiration_field_name self, expire)] else []).
Proof.
  intros self temporal proper flag expire Hdup Hfun.
  pose proof (ensure_lookup_method cls) as Hmethod.
  pose proof (ensure_loop_contributed cached_field_methods cls) as Hcontr.
  fold (ensure_class_has_cached_field_methods cls) in Hcontr.
  assert (∀ n, n ∈ installed_names self → ∀ f, n ≠ func_name f) as Hne.
  { intros n Hn f ->. by apply (Hfun f). }
  unfold installed_names in Hdup, Hne.
  cbn [bf_name self] in Hdup, Hne.
  pose proof (Hne _ ltac:(repeat constructor)) as Hn1.
  pose proof (Hne _ ltac:(do 1 apply list_elem_of_further; constructor)) as Hn2.
  pose proof (Hne _ ltac:(do 2 apply list_elem_of_further; constructor)) as Hn3.
  pose proof (Hne _ ltac:(do 3 apply list_elem_of_further; constructor)) as Hn4.
  pose proof (Hne _ ltac:(do 4 apply list_elem_of_further; constructor)) as Hn5.
  pose proof (Hne _ ltac:(do 5 apply list_elem_of_further; constructor)) as Hn6.
  pose proof (Hne _ ltac:(do 6 apply list_elem_of_further; constructor)) as Hn7.
  clear Hne Hfun.
  names_apart.
  unfold contribute_to_class, class_getattr.
  fold self. fold proper. fold flag. fold expire. fold temporal.
  set (ec := ensure_class_has_cached_field_methods cls) in *.
  pose proof (Hmethod F_recalculate_FIELD) as Hrec.
  pose proof (Hmethod F_get_FIELD) as Hget.
  pose proof (Hmethod F_set_FIELD) as Hset.
  pose proof (Hmethod F_expire_FIELD_after) as Hexp.
  pose proof (Hmethod F_flag_FIELD_as_stale) as Hflag.
  change (func_name F_recalculate_FIELD) with "_recalculate_FIELD" in Hrec.
  change (func_name F_get_FIELD) with "_get_FIELD" in Hget.
  change (func_name F_set_FIELD) with "_set_FIELD" in Hset.
  change (func_name F_expire_FIELD_after) with "_expire_FIELD_after" in Hexp.
  change (func_name F_flag_FIELD_as_stale) with "_flag_FIELD_as_stale" in Hflag.
  rewrite Hrec.
  cbn [attrs contributed class_setattr field_contribute_to_class].
  rewrite (lookup_insert_ne _ _ "_get_FIELD") by exact (Hn1 F_get_FIELD).
  rewrite Hget.
  rewrite (lookup_insert_ne _ _ "_set_FIELD") by exact (Hn1 F_set_FIELD).
  rewrite Hset.
  cbn [attrs contributed class_setattr field_contribute_to_class].
  destruct temporal.
  - cbn [attrs contributed class_setattr field_contribute_to_class].
    rewrite (lookup_insert_ne _ _ "_expire_FIELD_after")
      by exact (Hn4 F_expire_FIELD_after).
    rewrite (lookup_insert_ne _ _ "_expire_FIELD_after")
      by exact (Hn3 F_expire_FIELD_after).
    rewrite (lookup_insert_ne _ _ "_expire_FIELD_after")
      by exact (Hn2 F_expire_FIELD_after).
    rewrite (lookup_insert_ne _ _ "_expire_FIELD_after")
      by exact (Hn1 F_expire_FIELD_after).
    rewrite Hexp.
    cbn [attrs contributed class_setattr field_contribute_to_class].
    rewrite (lookup_insert_ne _ _ "_flag_FIELD_as_stale")
      by exact (Hn6 F_flag_FIELD_as_stale).
    rewrite (lookup_insert_ne _ _ "_flag_FIELD_as_stale")
      by exact (Hn5 F_flag_FIELD_as_stale).
    rewrite (lookup_insert_ne _ _ "_flag_FIELD_as_stale")
      by exact (Hn4 F_flag_FIELD_as_stale).
    rewrite (lookup_insert_ne _ _ "_flag_FIELD_as_stale")
      by exact (Hn3 F_flag_FIELD_as_stale).
    rewrite (lookup_insert_ne _ _ "_flag_FIELD_as_stale")
      by exact (Hn2 F_flag_FIELD_as_stale).
    rewrite (lookup_insert_ne _ _ "_flag_FIELD_as_stale")
      by exact (Hn1 F_flag_FIELD_as_stale).
    rewrite Hflag.
    eexists. split; [reflexivity|].
    cbn [attrs contributed class_setattr field_contribute_to_class].
    rewrite Hcontr, <- !app_assoc.
    repeat split; try look.
    intros f. rewrite !lookup_insert_ne by not_a_function. apply Hmethod.
  - cbn [attrs contributed class_setattr field_contribute_to_class].
    rewrite (lookup_insert_ne _ _ "_flag_FIELD_as_stale")
      by exact (Hn4 F_flag_FIELD_as_stale).
    rewrite (lookup_insert_ne _ _ "_flag_FIELD_as_stale")
      by exact (Hn3 F_flag_FIELD_as_stale).
    rewrite (lookup_insert_ne _ _ "_flag_FIELD_as_stale")
      by exact (Hn2 F_flag_FIELD_as_stale).
    rewrite (lookup_insert_ne _ _ "_flag_FIELD_as_stale")
      by exact (Hn1 F_flag_FIELD_as_stale).
    rewrite Hflag.
    eexists. split; [reflexivity|].
    cbn [attrs contributed class_setattr field_contribute_to_class].
    rewrite Hcontr, <- !app_assoc, app_nil_r.
    repeat split; try look.
    + apply ensure_lookup_other. exact Hn5.
    + apply ensure_lookup_other. exact Hn6.
    + intros f. rewrite !lookup_insert_ne by not_a_function. apply Hmethod.
Qed.

Lemma class_getattr_found (cls : Class O) (n : string) :
  is_Some (attrs cls !! n) → ∃ a, class_getattr cls n = inr a.
Proof.
  intros [a Ha]. exists a. unfold class_getattr. by rewrite Ha.
Qed.

Lemma setattr_keeps_found (cls : Class O) (k : string) (v : ClassAttr O)
    (n : string) :
  is_Some (attrs cls !! n) → is_Some (attrs (class_setattr cls k v) !! n).
Proof.
  intros Hn. cbn [attrs class_setattr].
  destruct (decide (k = n)) as [->|Hne].
  - rewrite lookup_insert_eq. eauto.
  - by rewrite lookup_insert_ne.
Qed.

Lemma contribute_keeps_found (cls : Class O) (k : string) (spec : FieldSpec)
    (n : string) :
  is_Some (attrs cls !! n) →
  is_Some (attrs (field_contribute_to_class cls k spec) !! n).
Proof. intros Hn. exact Hn. Qed.

(** Looks one of the six functions up on a class built from an ensured
    one by assignments. *)
Ltac found Hm f :=
  match goal with
  | |- context [class_getattr ?c (func_name f)] =>
    let a := fresh "a" in
    let E := fresh "E" in
    destruct (class_getattr_found c (func_name f)) as [a E];
    [ repeat first [apply setattr_keeps_found | apply contribute_keeps_found];
      exact (Hm f)
    | rewrite E; clear E ]
  end.

(** X22: binding raises nothing of its own, whatever the class holds and
    whatever the names are, colliding ones included: each of the functions
    it looks up was ensured before and no assignment removes an attribute.
    It removes no attribute the class had, leaves every attribute alone
    whose name is none of the seven it may set nor one of the six function
    names, and hands three model fields to the class on a field with
    temporal triggers and two otherwise. *)
Theorem contribute_to_class_always_binds
    (c : CachedClass) (config : CachedField O) (args : list pyval)
    (kwargs : kwdict) (cls : Class O) (name : string) :
  let self := {| bf_class := c; bf_config := config;
                 init_args_for_field := args;
                 init_kwargs_for_field := kwargs; bf_name := name |} in
  ∃ cls',
    contribute_to_class c config args kwargs cls name = inr (self, cls')
    ∧ (∀ n, is_Some (attrs cls !! n) → is_Some (attrs cls' !! n))
    ∧ (∀ n, n ∉ installed_names self → (∀ f, n ≠ func_name f) →
            attrs cls' !! n = attrs cls !! n)
    ∧ length (contributed cls')
      = (length (contributed cls)
         + if pytrig_bool (temporal_triggers config) then 3 else 2)%nat.
Proof.
  intros self.
  pose proof (ensure_loop_contributed cached_field_methods cls) as Hcontr.
  fold (ensure_class_has_cached_field_methods cls) in Hcontr.
  assert (∀ f, is_Some (attrs (ensure_class_has_cached_field_methods cls)
                          !! func_name f)) as Hm.
  { intros f. rewrite ensure_lookup_method. eauto. }
  assert (∀ n, is_Some (attrs cls !! n) →
               is_Some (attrs (ensure_class_has_cached_field_methods cls)
                          !! n)) as Hkept.
  { intros n [v Hv]. unfold ensure_class_has_cached_field_methods.
    rewrite ensure_loop_lookup, Hv. eauto. }
  pose proof (ensure_lookup_other cls) as Hother.
  unfold contribute_to_class. fold self.
  set (ec := ensure_class_has_cached_field_methods cls) in *.
  change "_recalculate_FIELD" with (func_name F_recalculate_FIELD).
  change "_get_FIELD" with (func_name F_get_FIELD).
  change "_set_FIELD" with (func_name F_set_FIELD).
  change "_expire_FIELD_after" with (func_name F_expire_FIELD_after).
  change "_flag_FIELD_as_stale" with (func_name F_flag_FIELD_as_stale).
  found Hm F_recalculate_FIELD.
  found Hm F_get_FIELD.
  found Hm F_set_FIELD.
  destruct (pytrig_bool (temporal_triggers config)).
  - found Hm F_expire_FIELD_after.
    found Hm F_flag_FIELD_as_stale.
    eexists. split; [reflexivity|]. repeat apply conj.
    + intros n Hn.
      repeat first [apply setattr_keeps_found | apply contribute_keeps_found].
      by apply Hkept.
    + intros n Hn Hf. unfold installed_names in Hn. cbn [bf_name self] in Hn.
      names_apart.
      cbn [attrs contributed class_setattr field_contribute_to_class].
      rewrite !lookup_insert_ne by (apply not_eq_sym; assumption).
      by apply Hother.
    + cbn [attrs contributed class_setattr field_contribute_to_class].
      rewrite !length_app, Hcontr. cbn [length]. lia.
  - found Hm F_flag_FIELD_as_stale.
    eexists. split; [reflexivity|]. repeat apply conj.
    + intros n Hn.
      repeat first [apply setattr_keeps_found | apply contribute_keeps_found].
      by apply Hkept.
    + intros n Hn Hf. unfold installed_names in Hn. cbn [bf_name self] in Hn.
      names_apart.
      cbn [attrs contributed class_setattr field_contribute_to_class].
      rewrite !lookup_insert_ne by (apply not_eq_sym; assumption).
      by apply Hother.
    + cbn [attrs contributed class_setattr field_contribute_to_class].
      rewrite !length_app, Hcontr. cbn [length]. lia.
Qed.

End Binding.

(** ** The further properties at the worked configuration *)

Lemma read_returns_cached_and_unflagged_witness :
  ∃ s',
    _get_FIELD Billing.settings Billing.clock Billing.calculate
      (Billing.field true) (Billing.loaded VNone true None)
      = Return (VInt 42) s'
    ∧ FIELD_recalculation_needed (self s') = false
    ∧ cached_FIELD (self s') = VInt 42
    ∧ pk (self s') = 7
    ∧ _meta (self s') = Billing.meta.
Proof.
  eexists. split; [reflexivity|].
  exact (read_returns_cached_and_unflagged Billing.settings Billing.clock
           Billing.calculate (Billing.field true)
           (Billing.loaded VNone true None) _ _ eq_refl).
Defined.

Lemma read_again_returns_same_witness :
  let s1 :=
    final_state
      (_get_FIELD Billing.settings Billing.clock Billing.calculate
         (Billing.field false) (Billing.loaded VNone true None)) in
  ∃ s2,
    _get_FIELD Billing.settings Billing.clock Billing.calculate
      (Billing.field false) s1 = Return (VInt 42) s2
    ∧ self s2 = self s1 ∧ db s2 = db s1 ∧ trace s2 = trace s1.
Proof.
  refine (read_again_returns_same Billing.settings Billing.clock
            Billing.calculate (Billing.field false)
            (Billing.loaded VNone true None) _ (VInt 42) eq_refl _).
  intros Htrig. discriminate Htrig.
Defined.

Lemma flag_as_stale_without_row_raises_witness :
  ∃ s',
    _flag_FIELD_as_stale Billing.settings (Billing.field false) None true
      Catalog.unsaved = Raise IndexError s'
    ∧ self s' = self Catalog.unsaved
    ∧ db s' = db Catalog.unsaved
    ∧ trace s' = trace Catalog.unsaved ++ [DbSelect 7].
Proof.
  exact (flag_as_stale_without_row_raises Billing.settings
           (Billing.field false) None true Catalog.unsaved eq_refl).
Defined.

Lemma expire_after_without_default_raises_witness :
  _expire_FIELD_after Billing.bare_settings Billing.clock (Billing.field true)
    (PyOffset 0) (Billing.loaded VNone false None)
  = Raise (AttributeError "CACHED_FIELD_DEFAULT_EXPIRATION")
      (Billing.loaded VNone false None).
Proof.
  exact (expire_after_without_default_raises Billing.bare_settings
           Billing.clock (Billing.field true) (PyOffset 0)
           (Billing.loaded VNone false None) eq_refl eq_refl).
Defined.

Lemma no_temporal_triggers_no_clock_no_settings_witness :
  _get_FIELD Billing.settings Billing.clock Billing.calculate
    (Billing.field false) (Billing.loaded VNone true (Some 5))
  = _get_FIELD Billing.bare_settings (λ _, 0) Billing.calculate
      (Billing.field false) (Billing.loaded VNone true (Some 5)).
Proof.
  exact (proj1 (no_temporal_triggers_no_clock_no_settings Billing.settings
                  Billing.clock Billing.calculate (Billing.field false)
                  PyNone PyNone true Billing.bare_settings (λ _, 0)
                  (Billing.loaded VNone true (Some 5)) eq_refl)).
Defined.

Lemma flag_as_stale_uncommitted_defers_update_witness :
  ∃ kw s1,
    _flag_FIELD_as_stale Billing.settings (Billing.field false) None false
      (Billing.loaded (VInt 3) false None) = Return kw s1
    ∧ db s1 = db (Billing.loaded (VInt 3) false None)
    ∧ trace s1 = trace (Billing.loaded (VInt 3) false None) ++ [DbSelect 7]
    ∧ self (final_state (db_update kw s1))
      = self (final_state
                (_flag_FIELD_as_stale Billing.settings (Billing.field false)
                   (Some false) true (Billing.loaded (VInt 3) false None)))
    ∧ db (final_state (db_update kw s1))
      = db (final_state
              (_flag_FIELD_as_stale Billing.settings (Billing.field false)
                 (Some false) true (Billing.loaded (VInt 3) false None))).
Proof.
  exact (flag_as_stale_uncommitted_defers_update Billing.settings
           (Billing.field false) None (Some false)
           (Billing.loaded (VInt 3) false None)
           (Billing.row (VInt 3) false None) eq_refl).
Defined.

Lemma recalculate_uncommitted_then_update_witness :
  let s1 :=
    final_state
      (_recalculate_FIELD Billing.settings Billing.clock Billing.calculate
         (Billing.field true) PyNone false (Billing.loaded VNone true None)) in
  let kw :=
    {| kw_cached := Some (VInt 42); kw_recalculation_needed := Some false;
       kw_expires_after := Some (Some (1000 + Billing.hour)) |} in
  ∃ s2,
    _recalculate_FIELD Billing.settings Billing.clock Billing.calculate
      (Billing.field true) PyNone true (Billing.loaded VNone true None)
      = Return None s2
    ∧ self s2 = self s1
    ∧ ticks s2 = ticks s1
    ∧ db s2 = db (final_state (db_update kw s1)).
Proof.
  exact (recalculate_uncommitted_then_update Billing.settings Billing.clock
           Billing.calculate (Billing.field true) PyNone
           (Billing.loaded VNone true None) _ _ eq_refl).
Defined.

Lemma flag_as_stale_then_read_recalculates_witness :
  ∃ s' evs,
    (_flag_FIELD_as_stale Billing.settings (Billing.field false) None true;;
     _get_FIELD Billing.settings Billing.clock Billing.calculate
       (Billing.field false)) (Billing.loaded (VInt 3) false None)
      = Return (VInt 42) s'
    ∧ FIELD_recalculation_needed (self s') = false
    ∧ stored_recalculation_needed s' = Some false
    ∧ stored_cached s' = Some (VInt 42)
    ∧ trace s' = trace (Billing.loaded (VInt 3) false None) ++ evs
    ∧ calculate_calls evs = 1%nat
    ∧ trigger_calls evs = 1%nat.
Proof.
  refine (flag_as_stale_then_read_recalculates Billing.settings Billing.clock
            Billing.calculate (Billing.field false) None
            (Billing.loaded (VInt 3) false None)
            (Billing.row (VInt 3) false None) (VInt 42)
            eq_refl eq_refl _ _ eq_refl).
  - eexists. reflexivity.
  - intros Htrig. discriminate Htrig.
Defined.

Lemma flag_as_stale_skips_object_when_row_flagged_witness :
  ∃ s' evs,
    (_flag_FIELD_as_stale Billing.settings (Billing.field false) None true;;
     _get_FIELD Billing.settings Billing.clock Billing.calculate
       (Billing.field false)) Catalog.behind
      = Return (VInt 3) s'
    ∧ FIELD_recalculation_needed (self s') = false
    ∧ stored_recalculation_needed s' = Some true
    ∧ trace s' = trace Catalog.behind ++ evs
    ∧ calculate_calls evs = 0%nat.
Proof.
  refine (flag_as_stale_skips_object_when_row_flagged Billing.settings
            Billing.clock Billing.calculate (Billing.field false) None true
            Catalog.behind (Billing.row (VInt 3) true None)
            eq_refl eq_refl eq_refl _ _).
  - eexists. reflexivity.
  - intros Htrig. discriminate Htrig.
Defined.

Lemma expire_in_the_past_then_read_recalculates_witness :
  ∃ s' evs,
    (_expire_FIELD_after Billing.settings Billing.clock (Billing.field true)
       (PyDatetime 500);;
     _get_FIELD Billing.settings Billing.clock Billing.calculate
       (Billing.field true)) (Billing.loaded (VInt 3) false None)
      = Return (VInt 42) s'
    ∧ cached_FIELD (self s') = VInt 42
    ∧ FIELD_recalculation_needed (self s') = false
    ∧ stored_cached s' = Some (VInt 42)
    ∧ stored_recalculation_needed s' = Some false
    ∧ trace s' = trace (Billing.loaded (VInt 3) false None) ++ evs
    ∧ calculate_calls evs = 1%nat.
Proof.
  refine (expire_in_the_past_then_read_recalculates Billing.settings
            Billing.clock Billing.calculate (Billing.field true)
            (Billing.loaded (VInt 3) false None) 500
            (Billing.row (VInt 3) false None) (VInt 42)
            eq_refl eq_refl eq_refl _ eq_refl).
  eexists. reflexivity.
Defined.

Lemma failed_read_leaves_row_unflagged_witness :
  ∃ s1,
    _get_FIELD Billing.settings Billing.clock Billing.failing_calculate
      (Billing.field false) (Billing.loaded (VInt 3) true None)
      = Raise (CalculationError "no lines") s1
    ∧ stored_recalculation_needed s1 = Some false
    ∧ stored_cached s1 = Some (VInt 3)
    ∧ ∃ s3,
        _get_FIELD Billing.settings Billing.clock Billing.failing_calculate
          (Billing.field false) (reloaded s1) = Return (VInt 3) s3
        ∧ trace s3 = trace s1.
Proof.
  destruct (failed_read_leaves_row_unflagged Billing.settings Billing.clock
              Billing.failing_calculate (Billing.field false)
              (Billing.loaded (VInt 3) true None)
              (CalculationError "no lines") (Billing.row (VInt 3) true None)
              eq_refl eq_refl eq_refl)
    as (s1 & Hrun & _ & Hflag & Hcached & _ & Hreload).
  destruct Hreload as (s3 & Hread & _ & Htrace).
  - intros Htrig. discriminate Htrig.
  - exists s1. repeat split; try assumption. exists s3. by split.
Defined.

Lemma set_then_read_returns_assigned_witness :
  ∃ s',
    (_set_FIELD (Billing.field false) (VInt 9);;
     _get_FIELD Billing.settings Billing.clock Billing.calculate
       (Billing.field false)) (Billing.loaded (VInt 3) false None)
      = Return (VInt 9) s'
    ∧ self s' = set_cached (VInt 9) (self (Billing.loaded (VInt 3) false None))
    ∧ db s' = db (Billing.loaded (VInt 3) false None)
    ∧ trace s' = trace (Billing.loaded (VInt 3) false None).
Proof.
  refine (set_then_read_returns_assigned Billing.settings Billing.clock
            Billing.calculate (Billing.field false)
            (Billing.loaded (VInt 3) false None) (VInt 9) eq_refl _).
  intros Htrig. discriminate Htrig.
Defined.

Lemma set_on_flagged_object_is_overwritten_witness :
  ∃ s',
    (_set_FIELD (Billing.field false) (VInt 9);;
     _get_FIELD Billing.settings Billing.clock Billing.calculate
       (Billing.field false)) (Billing.loaded (VInt 3) true None)
      = Return (VInt 42) s'
    ∧ cached_FIELD (self s') = VInt 42
    ∧ stored_cached s' = Some (VInt 42).
Proof.
  refine (set_on_flagged_object_is_overwritten Billing.settings Billing.clock
            Billing.calculate (Billing.field false)
            (Billing.loaded (VInt 3) true None) (VInt 9) (VInt 42)
            (Billing.row (VInt 3) true None) eq_refl eq_refl _ eq_refl).
  intros Htrig. discriminate Htrig.
Defined.

Lemma flag_as_stale_without_celery_kwargs_raises_witness :
  ∃ s' evs,
    _flag_FIELD_as_stale Billing.settings Catalog.field_without_celery_kwargs
      None true (Billing.loaded (VInt 3) false None) = Raise TypeError s'
    ∧ stored_recalculation_needed s' = Some true
    ∧ trace s' = trace (Billing.loaded (VInt 3) false None) ++ evs
    ∧ updates evs = [flag_raise]
    ∧ delayed evs = [].
Proof.
  exact (flag_as_stale_without_celery_kwargs_raises Billing.settings
           Catalog.field_without_celery_kwargs None
           (Billing.loaded (VInt 3) false None)
           (Billing.row (VInt 3) false None) eq_refl eq_refl eq_refl).
Defined.

Lemma committed_operations_keep_object_in_sync_witness :
  in_sync (Billing.loaded VNone true None)
  ∧ in_sync
      (final_state
         (_get_FIELD Billing.settings Billing.clock Billing.calculate
            (Billing.field true) (Billing.loaded VNone true None)))
  ∧ in_sync
      (final_state
         (_flag_FIELD_as_stale Billing.settings (Billing.field true) None true
            (Billing.loaded VNone true None))).
Proof.
  assert (in_sync (Billing.loaded VNone true None)) as Hsync.
  { exists (Billing.row VNone true None). split; [reflexivity|].
    repeat split. }
  destruct (committed_operations_keep_object_in_sync Billing.settings
              Billing.clock Billing.calculate (Billing.field true)
              PyNone None (Billing.loaded VNone true None) Hsync)
    as (Hread & _ & _ & Hflag).
  split; [exact Hsync|]. split.
  - exact (Hread _ _ eq_refl).
  - exact (Hflag _ _ eq_refl).
Defined.

Lemma init_explicit_arguments_need_no_settings_witness :
  ∃ field,
    CachedFieldMixin__init__ Billing.bare_settings None None None true
      false false None (Some [("countdown", VInt 5)]) = inr field
    ∧ CachedFieldMixin__init__ Billing.settings None None None true
        false false None (Some [("countdown", VInt 5)]) = inr field
    ∧ temporal_triggers field = TrigBool true
    ∧ celery_async_kwargs field = Some [("countdown", VInt 5)].
Proof.
  exact (init_explicit_arguments_need_no_settings Billing.bare_settings
           Billing.settings None None None false false None
           (Some [("countdown", VInt 5)]) eq_refl).
Defined.

Lemma constructed_field_names_witness :
  let self := {| bf_class := CachedIntegerField;
                 bf_config := Billing.field true;
                 init_args_for_field := [];
                 init_kwargs_for_field := [("null", VBool true)];
                 bf_name := "total" |} in
  cached_field_name self = "cached_total"
  ∧ recalculation_needed_field_name self = "total_recalculation_needed"
  ∧ calculation_method_name self = "calculate_total"
  ∧ expiration_field_name self = "total_expires_after".
Proof.
  exact (constructed_field_names Billing.settings None (Some "") None true
           false false None (Some [("countdown", VInt 5)])
           (Billing.field true) CachedIntegerField []
           [("null", VBool true)] "total" eq_refl).
Defined.

Lemma contribute_to_class_installs_witness :
  ∃ cls',
    contribute_to_class CachedIntegerField (Billing.field true) []
      [("null", VBool true)] Catalog.plain_class "total"
      = inr (Catalog.total, cls')
    ∧ attrs cls' !! "recalculate_total"
      = Some (ACurry (AFunction F_recalculate_FIELD) Catalog.total)
    ∧ attrs cls' !! "cached_total"
      = Some (AField (ProperField IntegerField [] [("null", VBool true)]))
    ∧ attrs cls' !! "total_expires_after"
      = Some (AField (ExpireField false))
    ∧ (∀ f, attrs cls' !! func_name f = Some (AFunction f)).
Proof.
  destruct (contribute_to_class_installs CachedIntegerField
              (Billing.field true) [] [("null", VBool true)]
              Catalog.plain_class "total")
    as (cls' & Hrun & Hrec & _ & Hcached & _ & _ & _ & Hexp & Hfun & _).
  - refine (bool_decide_unpack _ _). vm_compute. exact I.
  - intros f. refine (bool_decide_unpack _ _). destruct f; vm_compute; exact I.
  - exists cls'. repeat split; assumption.
Defined.

Lemma read_flagged_raises_without_default_expiration_witness :
  ∃ s',
    _get_FIELD Billing.bare_settings Billing.clock Billing.calculate
      (Billing.field true) (Billing.loaded (VInt 3) true None)
      = Raise (AttributeError "CACHED_FIELD_DEFAULT_EXPIRATION") s'
    ∧ stored_recalculation_needed s' = Some false
    ∧ stored_cached s' = Some (VInt 3).
Proof.
  exact (read_flagged_raises_without_default_expiration Billing.bare_settings
           Billing.clock Billing.calculate (Billing.field true)
           (Billing.loaded (VInt 3) true None) (VInt 42)
           (Billing.row (VInt 3) true None)
           eq_refl eq_refl eq_refl eq_refl eq_refl eq_refl).
Defined.

Lemma init_falls_back_to_default_expiration_witness :
  ∃ field,
    CachedFieldMixin__init__ Billing.settings None None None false false
      false None (Some [("countdown", VInt 5)]) = inr field
    ∧ pytrig_bool (temporal_triggers field) = true.
Proof.
  exact (init_falls_back_to_default_expiration Billing.settings None None
           None false false None (Some [("countdown", VInt 5)])
           (PyOffset Billing.hour) (Some []) eq_refl eq_refl).
Defined.

Lemma operations_without_row_store_nothing_witness :
  db (final_state
        (_get_FIELD Billing.settings Billing.clock Billing.calculate
           (Billing.field true) Catalog.unsaved)) = ∅
  ∧ ∃ s' evs,
      _recalculate_FIELD Billing.settings Billing.clock Billing.calculate
        (Billing.field true) PyNone true Catalog.unsaved = Return None s'
      ∧ cached_FIELD (self s') = VInt 42
      ∧ FIELD_recalculation_needed (self s') = false
      ∧ stored_cached s' = None
      ∧ trace s' = trace Catalog.unsaved ++ evs
      ∧ length (updates evs) = 2%nat.
Proof.
  destruct (operations_without_row_store_nothing Billing.settings
              Billing.clock Billing.calculate (Billing.field true) PyNone
              true Catalog.unsaved eq_refl)
    as (Hread & _ & _ & Hrecalculate).
  split; [exact Hread|].
  apply (Hrecalculate (VInt 42) eq_refl).
  intros _. eexists. reflexivity.
Defined.
